(** * A notebook that trains and benchmarks Medusa heads: embedding and checked claims

    The repository is one Jupyter notebook, [src/notebook.ipynb].  Its cells
    are transcribed below line by line; everything else (the IPython statements
    of a code cell, the fenced blocks of a markdown cell, the words of each
    shell command, the JSON body of the test request) is computed from that
    transcription by the functions of this file. *)

From Stdlib Require Import ZArith QArith Qround Ascii String List Bool Lia DecimalString.
From stdpp Require Import gmap strings.
Import ListNotations.

Local Open Scope string_scope.
Local Open Scope list_scope.

(** ** Text helpers *)

Module Text.

(** The line feed and the double quote, as characters and one-character strings. *)
Definition lf : ascii := "010"%char.
Definition dquote : ascii := "034"%char.
Definition nl : string := String lf EmptyString.
Definition dq : string := String dquote EmptyString.

(** The transcription writes the source's double quote as [~], a character
    that occurs nowhere in the notebook; [q] puts the double quote back. *)
Fixpoint q (s : string) : string :=
  match s with
  | EmptyString => EmptyString
  | String c r => String (if Ascii.eqb c "~" then dquote else c) (q r)
  end.

(** A cell's text: its lines joined by line feeds (in the notebook file every
    line but the last of a cell carries its own line feed). *)
Definition unlines (ls : list string) : string := String.concat nl ls.

Fixpoint last_char (s : string) : option ascii :=
  match s with
  | EmptyString => None
  | String c EmptyString => Some c
  | String _ r => last_char r
  end.

Definition ends_with_backslash (s : string) : bool :=
  match last_char s with
  | Some c => Ascii.eqb c "\"
  | None => false
  end.

Definition starts_with (p s : string) : bool := String.prefix p s.

Definition drop (n : nat) (s : string) : string :=
  String.substring n (String.length s - n) s.

Definition is_blank (c : ascii) : bool :=
  Ascii.eqb c " " || Ascii.eqb c "009".

Fixpoint ltrim (s : string) : string :=
  match s with
  | String c r => if is_blank c then ltrim r else s
  | EmptyString => EmptyString
  end.

Fixpoint rev_string (acc s : string) : string :=
  match s with
  | EmptyString => acc
  | String c r => rev_string (String c acc) r
  end.

Definition rtrim (s : string) : string :=
  rev_string EmptyString (ltrim (rev_string EmptyString s)).

Definition trim (s : string) : string := rtrim (ltrim s).

(** [contains p s]: [p] occurs in [s] as a substring. *)
Fixpoint contains (p s : string) : bool :=
  String.prefix p s ||
  match s with
  | EmptyString => false
  | String _ r => contains p r
  end.

(** [split_at c s]: the text before the first [c] and the text after it. *)
Fixpoint split_at (c : ascii) (s : string) : option (string * string) :=
  match s with
  | EmptyString => None
  | String d r =>
      if Ascii.eqb c d then Some (EmptyString, r)
      else match split_at c r with
           | Some (a, b) => Some (String d a, b)
           | None => None
           end
  end.

End Text.

(** ** The notebook, cell by cell *)

Module Notebook.
Import Text.

Inductive cell_type := Markdown | Code.

Record cell := mk_cell { cell_kind : cell_type; source : list string }.

Definition cell0 : cell := mk_cell Markdown [
  "# Speculative Decoding: Train and Benchmark Medusa";
  EmptyString;
  "Large Language Models (LLMs) are changing our world. However, productionizing them can be slow and expensive. Speculative decoding is a technique that can speed up LLM inference by predicting multiple future tokens in parallel. This can reduce the time required for generating text outputs. However, speculative decoding can be complex to implement. Medusa is a framework that simplifies the speculative decoding process while maintaining its benefits.";
  EmptyString;
  q "Medusa accelerates LLM text generation by adding multiple decoding heads to predict several subsequent tokens in parallel, instead of just the next token. It then uses tree attention to efficiently process multiple token candidates simultaneously and a typical acceptance scheme to select plausible continuations, resulting in about a 2x speedup in generation time. By integrating additional ~Medusa heads~ with the original model, it allows for efficient token generation without the need for a separate draft model. ";
  EmptyString;
  "This blog post shows you how to train and benchmark Medusa. ";
  EmptyString;
  "## Training Medusa";
  EmptyString;
  "Before training our Medusa we need to better understand our data distribution. One of the most important things is to have a good dataset (with similar distribution to what will be used in production) because Medusa has a much higher hit-rate when the generation is in-domain. ";
  EmptyString;
  "This means if you are going to train Medusa on a dataset that is very different from the data/user queries you have in production, your speedup will be minimal or non-existent. ";
  EmptyString;
  "There are 3 different ways to select/prepare data for training Medusa:";
  EmptyString;
  "1. **Self-distillation**: This is the easiest and most effective way to prepare data for training. You can use the same model to generate the data that you will use to train the model. Essentially, you prompt the model with a similar input to what you will use in production and the model will generate the output.";
  "2. **User/Application data**: If you are able to collect real user queries and model outputs, you can use this data to train Medusa. ";
  "3. **Fine-tuning data**: If you don't have access to user data, you can use the fine-tuning dataset to train Medusa.";
  EmptyString;
  "In this blog post, we will use the fine-tuning data to train Medusa. ";
  EmptyString;
  "The dataset or data distribution also plays a key role when evaluating/benchmarking the performance of the Medusa heads. As we learned that Medusa has a much higher hit-rate when the generation is in-domain, it is important to evaluate the Medusa heads on the same data distribution that will be used in production or training. I";
  EmptyString;
  "Okay lets get started. 🚀 We will use a smalle modified the [original implementation of Medusa](https://github.com/FasterDecoding/Medusa). The repository includes a training script along side a python package. Lets clone the repository and install the package."
].

Definition cell1 : cell := mk_cell Code [
  "# Install Pytorch, Deepspeed & Hugging Face libraries";
  q "%pip install ~torch==2.4.0~ tensorboard ~transformers==4.44.2~ ~datasets==2.21.0~ ~accelerate==0.33.0~ ~deepspeed==0.14.5~";
  "# Download and install Medusa packages";
  "# !git clone https://github.com/philschmid/Medusa";
  "# !cd Medusa && pip install -e ."
].

Definition cell2 : cell := mk_cell Markdown [
  "We are going to use the same SFT dataset as used for the model. As model we will use [philschmid/code-llama-3-1-8b-text-to-sql](https://huggingface.co/philschmid/code-llama-3-1-8b-text-to-sql) a Llama 3.1 8b Q-Lora fine-tuned LLM for text-to-sql task. The SFT dataset is available at [philschmid/text-to-sql-dataset-medusa](https://huggingface.co/datasets/philschmid/text-to-sql-dataset-medusa). ";
  EmptyString;
  "The dataset includes 10,000 training samples, which where used for SFT and 2,500 test samples. We will later use those unseen 2,500 test samples for benchmarking our edusa Model.";
  EmptyString;
  "First Lets download our dataset and save it to a json file."
].

Definition cell3 : cell := mk_cell Code [
  "from datasets import load_dataset";
  "import json";
  EmptyString;
  "# Load the dataset";
  q "dataset = load_dataset(~philschmid/text-to-sql-dataset-medusa~)";
  EmptyString;
  "# Save the train dataset as list to disk as JSON";
  q "with open(~train_dataset.json~, ~w~) as f:";
  q "    json.dump(list(dataset[~train~][~messages~]), f)"
].

Definition cell4 : cell := mk_cell Markdown [
  "Now, we are ready to train our Medusa model. For Medusa there are 2 important hyperparameters:";
  EmptyString;
  "* `medusa_heads`: controls the number of additional decoding heads added to the language model. These heads predict multiple future tokens in parallel, speeding up inference. ";
  "* `medusa_layers`: The number of layers to use for each Medusa heads. ";
  EmptyString;
  "We can start our training using the existing `train_legacy.py` script and provide our parameters. "
].

Definition cell5 : cell := mk_cell Code [
  "!torchrun --nproc_per_node=4  Medusa/medusa/train/train_legacy.py \";
  "    --model_name_or_path philschmid/code-llama-3-1-8b-text-to-sql \";
  "    --data_path train_dataset.json \";
  "    --bf16 True \";
  "    --output_dir code_llama31 \";
  "    --num_train_epochs 5 \";
  "    --per_device_train_batch_size 1 \";
  "    --gradient_accumulation_steps 4 \";
  q "    --eval_strategy ~no~ \";
  q "    --save_strategy ~epoch~ \";
  "    --learning_rate 5e-4 \";
  q "    --lr_scheduler_type ~cosine~ \";
  "    --warmup_steps 40 \";
  "    --logging_steps 10 \";
  "    --tf32 True \";
  "    --model_max_length 2048 \";
  "    --lazy_preprocess False \";
  "    --medusa_num_heads 3 \";
  "    --medusa_num_layers 1 \";
  "    --deepspeed ./Medusa/deepspeed.json"
].

Definition cell6 : cell := mk_cell Markdown [
  "Nice our training successfully finished. Now we just need to push our model to the hub and we are ready to benchmark our model. Make sure to replace the `folder` and `repo` with your own values."
].

Definition cell7 : cell := mk_cell Code [
  "!python -m medusa.hf_utils \";
  "    --folder code_llama31_medusa \";
  "    --repo philschmid/code-llama-3-1-8b-text-to-sql-medusa "
].

Definition cell8 : cell := mk_cell Markdown [
  "## Benchmark Medusa with Hugging Face Text Generation Inference ";
  EmptyString;
  "TODO: Text about what TGI is on what it supports ";
  EmptyString;
  q "When using Speculative decoding we want to measure the acceleration of our model through the Medusa heads. ~Acceleration~ refers to the speedup achieved during speculative decoding. Specifically, acceleration is calculated as the ratio of the total number of tokens (both generated and skipped) to the number of iterations or loops needed to produce those tokens.";
  EmptyString;
  "Acceleration measures how much faster a model can produce output when it speculates multiple tokens ahead. The formula given is.  ";
  "`Acceleration = (Total Tokens (Generated + Skipped)) / (Number of Loops/Iterations)`";
  EmptyString;
  "acceleration = (17687 + 27101) / 27101 = 1.65";
  EmptyString;
  EmptyString;
  EmptyString;
  "Lets start our TGI container using the `docker run` command.";
  "```bash";
  "CUDA_VISIBLE_DEVICES=0 docker run --gpus all -ti --shm-size 1g --ipc=host --rm -p 8080:80 \";
  "  -e MODEL_ID=philschmid/code-llama-3-1-8b-text-to-sql-medusa \";
  "  -e NUM_SHARD=1 \";
  "  -e MAX_INPUT_TOKENS=4096 \";
  "  -e MAX_TOTAL_TOKENS=6000 \";
  "  ghcr.io/huggingface/text-generation-inference:sha-b70ae09";
  "```"
].

Definition cell9 : cell := mk_cell Markdown [
  "After our container is running, we can test it with a simple query. "
].

Definition cell10 : cell := mk_cell Code [
  "%%bash";
  "curl localhost:8080/v1/chat/completions \";
  "    -X POST \";
  "    -d '{";
  q "  ~model~: ~tgi~,";
  q "  ~messages~: [";
  "    {";
  q "      ~role~: ~user~,";
  q "      ~content~: ~Write a poem for my three year old~";
  "    }";
  "  ],";
  q "  ~stream~: false,";
  q "  ~max_tokens~: 250";
  "}' \";
  "    -H 'Content-Type: application/json'"
].

Definition cell11 : cell := mk_cell Markdown [
  "For Benchmarking we will use guidellm from NeuralMagic. GuideLLM can be used to simulate real-world inference workloads, GuideLLM helps users gauge the performance, resource needs, and cost implications of deploying LLMs on various hardware configurations. Supporting Hugigng Face dataset from local files or remote for benchmarking. If you are planning to use a Hugging Face dataset, you need to make sure that the dataset includes a `text` field, with the formatted prompt (system + user). ";
  EmptyString;
  "Here is a simple example on how to create on. (It was used to create the test set):";
  "```python";
  "from datasets import load_dataset";
  "from transformers import AutoTokenizer";
  EmptyString;
  "# Load the dataset";
  q "dataset = load_dataset(~philschmid/text-to-sql-dataset-medusa~)";
  q "tokenizer = AutoTokenizer.from_pretrained(~philschmid/code-llama-3-1-8b-text-to-sql~)";
  EmptyString;
  "def create_text_field(samples):";
  q "    prompt = tokenizer.apply_chat_template(samples[~messages~][0:2], tokenize=False)";
  q "    return {~text~: prompt}";
  "  ";
  q "td = dataset[~test~].map(create_text_field)";
  q "td.push_to_hub(~philschmid/text-to-sql-dataset-medusa-test-chatml~)";
  "```"
].

Definition cell12 : cell := mk_cell Code [
  "!pip install guidellm"
].

Definition cell13 : cell := mk_cell Markdown [
  "GuideLLM will use the OpenAI API and run through our test dataset 2,500 queries with different concurrent requests. ";
  EmptyString;
  "```bash";
  "guidellm \";
  q "  --target ~http://localhost:8080/v1~ \";
  "  --model philschmid/code-llama-3-1-8b-text-to-sql-medusa \";
  "  --data philschmid/text-to-sql-dataset-medusa-test-chatml \";
  "  --data-type transformers \";
  "  --max-seconds 60 \";
  "  --output-path benchmark_medusa.json";
  "```";
  EmptyString;
  "Running Llama 3.1 8b with Medusa heads on a single GPU we get the following results: ";
  EmptyString;
  "```                                                                                                     ";
  "┏━━━━━━━━━━━━━━━━━━━━━━━━━━━┳━━━━━━━━━━━━━━━━━━━━━┳━━━━━━━━━━━━━━━━━┳━━━━━━━━━━━━━━━━━━━━━┳━━━━━━━━━━━━━━━━━━━━━┳━━━━━━━━━━━━━━━━━━━━━━━━━┓ ";
  "┃ Benchmark                 ┃ Requests per Second ┃ Request Latency ┃ Time to First Token ┃ Inter Token Latency ┃ Output Token Throughput ┃ ";
  "┡━━━━━━━━━━━━━━━━━━━━━━━━━━━╇━━━━━━━━━━━━━━━━━━━━━╇━━━━━━━━━━━━━━━━━╇━━━━━━━━━━━━━━━━━━━━━╇━━━━━━━━━━━━━━━━━━━━━╇━━━━━━━━━━━━━━━━━━━━━━━━━┩ ";
  "│ synchronous               │ 0.86 req/sec        │ 1.16 sec        │ 80.81 ms            │ 50.32 ms            │ 18.53 tokens/sec        │ ";
  "│ throughput                │ 3.91 req/sec        │ 12.48 sec       │ 10824.93 ms         │ 77.18 ms            │ 84.42 tokens/sec        │ ";
  "└───────────────────────────┴─────────────────────┴─────────────────┴─────────────────────┴─────────────────────┴─────────────────────────┘  ";
  "```";
  EmptyString;
  "Now, lets compare this to our base model without Medusa. There for we use the same `docker run` command but replace our Model id. ";
  EmptyString;
  "```Bash";
  "CUDA_VISIBLE_DEVICES=0 docker run --gpus all -ti --shm-size 1g --ipc=host --rm -p 8080:80 \";
  "  -e MODEL_ID=philschmid/code-llama-3-1-8b-text-to-sql \";
  "  -e NUM_SHARD=1 \";
  "  -e MAX_INPUT_TOKENS=4096 \";
  "  -e MAX_TOTAL_TOKENS=6000 \";
  "  ghcr.io/huggingface/text-generation-inference:sha-b70ae09";
  "```";
  EmptyString;
  "And then rerun our benchmark, make sure to change the output path to `benchmark_baseline.json`. ";
  EmptyString;
  "```";
  "┏━━━━━━━━━━━━━━━━━━━━━━━━━━━┳━━━━━━━━━━━━━━━━━━━━━┳━━━━━━━━━━━━━━━━━┳━━━━━━━━━━━━━━━━━━━━━┳━━━━━━━━━━━━━━━━━━━━━┳━━━━━━━━━━━━━━━━━━━━━━━━━┓ ";
  "┃ Benchmark                 ┃ Requests per Second ┃ Request Latency ┃ Time to First Token ┃ Inter Token Latency ┃ Output Token Throughput ┃ ";
  "┡━━━━━━━━━━━━━━━━━━━━━━━━━━━╇━━━━━━━━━━━━━━━━━━━━━╇━━━━━━━━━━━━━━━━━╇━━━━━━━━━━━━━━━━━━━━━╇━━━━━━━━━━━━━━━━━━━━━╇━━━━━━━━━━━━━━━━━━━━━━━━━┩ ";
  "│ synchronous               │ 0.71 req/sec        │ 1.40 sec        │ 81.08 ms            │ 60.50 ms            │ 15.56 tokens/sec        │ ";
  "│ throughput                │ 3.76 req/sec        │ 13.11 sec       │ 11370.37 ms         │ 81.92 ms            │ 79.66 tokens/sec        │ ";
  "└───────────────────────────┴─────────────────────┴─────────────────┴─────────────────────┴─────────────────────┴─────────────────────────┘  ";
  "```"
].

Definition cell14 : cell := mk_cell Code [
].

Definition cell15 : cell := mk_cell Markdown [
].

Definition notebook : list cell :=
  [cell0; cell1; cell2; cell3; cell4; cell5; cell6; cell7; cell8; cell9; cell10; cell11; cell12; cell13; cell14; cell15].


(** *** Code cells: IPython statements

    A code cell whose first line starts with [%%] is a cell magic: the rest of
    the cell is handed to the named program ([%%bash]).  Otherwise the cell is
    read line by line: [!cmd] hands [cmd] to the system shell, [%name ...] is
    a line magic, every other line is Python.  A [!] line that ends in a
    backslash goes on with the next line; IPython joins such lines itself,
    dropping each backslash and putting one blank between the pieces. *)

Inductive stmt :=
  | Bang (text : string)
  | LineMagic (text : string)
  | PyLine (line : string).

Inductive cell_body :=
  | CellMagic (name : string) (script : string)
  | Lines (ss : list stmt).

(** A continued line without its final backslash. *)
Definition chop (l : string) : string := String.substring 0 (String.length l - 1) l.

Fixpoint stmts (pending : option string) (ls : list string) : list stmt :=
  match ls with
  | [] => match pending with
          | Some t => [Bang t]
          | None => []
          end
  | l :: ls' =>
      match pending with
      | Some t =>
          if ends_with_backslash l then stmts (Some (t +:+ " " +:+ chop l)) ls'
          else Bang (t +:+ " " +:+ rtrim l) :: stmts None ls'
      | None =>
          if starts_with "!" l then
            if ends_with_backslash l then stmts (Some (chop (drop 1 l))) ls'
            else Bang (rtrim (drop 1 l)) :: stmts None ls'
          else if starts_with "%" l then LineMagic (drop 1 l) :: stmts None ls'
          else PyLine l :: stmts None ls'
      end
  end.

Definition code_body (ls : list string) : cell_body :=
  match ls with
  | first :: rest =>
      if starts_with "%%" first then CellMagic (trim (drop 2 first)) (unlines rest)
      else Lines (stmts None ls)
  | [] => Lines []
  end.

(** *** Markdown cells: fenced blocks

    A line that starts with three backquotes opens a block (the rest of the
    line, trimmed, is its info string) or closes the open one. *)

Definition fence : string := "```".

Fixpoint fenced (open : option (string * list string)) (ls : list string)
  : list (string * list string) :=
  match ls with
  | [] => []
  | l :: ls' =>
      match open with
      | None =>
          if starts_with fence l then fenced (Some (trim (drop 3 l), [])) ls'
          else fenced None ls'
      | Some (info, body) =>
          if starts_with fence l then (info, body) :: fenced None ls'
          else fenced (Some (info, body ++ [l])) ls'
      end
  end.

End Notebook.

(** ** Shell words

    The commands of the notebook are plain POSIX simple commands.  [lex]
    splits a command text into words the way the shell does: blanks separate
    words, a backslash before a line feed continues the line, single quotes
    keep everything literally, double quotes keep everything but the
    backslash escapes, an unquoted line feed ends the command.  Control
    operators are kept as tokens of their own; parameter expansion and
    command substitution are not modelled, a text that uses them (or leaves a
    quote open) has no reading. *)

Module Shell.
Import Text.

Inductive token :=
  | Word (w : string)
  | Newline
  | Op (c : ascii).

Inductive mode := Bare | Single | Double | Comment.

Definition push (c : ascii) (cur : option string) : option string :=
  match cur with
  | None => Some (String c EmptyString)
  | Some w => Some (w +:+ String c EmptyString)
  end.

Definition start (cur : option string) : option string :=
  match cur with
  | None => Some EmptyString
  | Some w => Some w
  end.

Definition flush (cur : option string) (k : list token) : list token :=
  match cur with
  | None => k
  | Some w => Word w :: k
  end.

Definition is_operator (c : ascii) : bool :=
  existsb (Ascii.eqb c) [";"; "&"; "|"; "<"; ">"; "("; ")"]%char.

Definition is_expansion (c : ascii) : bool :=
  existsb (Ascii.eqb c) ["$"; "`"]%char.

Definition escapable_in_double (c : ascii) : bool :=
  existsb (Ascii.eqb c) ["$"; "`"; "\"; dquote]%char.

Fixpoint lex (m : mode) (cur : option string) (s : string) : option (list token) :=
  match s with
  | EmptyString =>
      match m with
      | Bare | Comment => Some (flush cur [])
      | Single | Double => None
      end
  | String c rest =>
      match m with
      | Comment =>
          if Ascii.eqb c lf then option_map (cons Newline) (lex Bare None rest)
          else lex Comment None rest
      | Single =>
          if Ascii.eqb c "'" then lex Bare cur rest
          else lex Single (push c cur) rest
      | Double =>
          if Ascii.eqb c dquote then lex Bare cur rest
          else if Ascii.eqb c "\" then
            match rest with
            | EmptyString => None
            | String d rest' =>
                if Ascii.eqb d lf then lex Double cur rest'
                else if escapable_in_double d then lex Double (push d cur) rest'
                else lex Double (push d (push c cur)) rest'
            end
          else if is_expansion c then None
          else lex Double (push c cur) rest
      | Bare =>
          if Ascii.eqb c "\" then
            match rest with
            | EmptyString => None
            | String d rest' =>
                if Ascii.eqb d lf then lex Bare cur rest'
                else lex Bare (push d cur) rest'
            end
          else if Ascii.eqb c "'" then lex Single (start cur) rest
          else if Ascii.eqb c dquote then lex Double (start cur) rest
          else if is_blank c then option_map (flush cur) (lex Bare None rest)
          else if Ascii.eqb c lf then
            option_map (fun k => flush cur (Newline :: k)) (lex Bare None rest)
          else if is_operator c then
            option_map (fun k => flush cur (Op c :: k)) (lex Bare None rest)
          else if is_expansion c then None
          else if Ascii.eqb c "#" then
            match cur with
            | None => lex Comment None rest
            | Some _ => lex Bare (push c cur) rest
            end
          else lex Bare (push c cur) rest
      end
  end.

(** The simple commands of a token list: the words between line ends.  A
    command with a control operator in it is no simple command. *)
Fixpoint simple_commands (cur : list string) (ts : list token)
  : option (list (list string)) :=
  let close (k : list (list string)) :=
    match cur with
    | [] => k
    | _ => rev cur :: k
    end in
  match ts with
  | [] => Some (close [])
  | Word w :: ts' => simple_commands (w :: cur) ts'
  | Newline :: ts' => option_map close (simple_commands [] ts')
  | Op _ :: _ => None
  end.

(** The argument vectors a shell text runs, one per simple command. *)
Definition argvs (text : string) : option (list (list string)) :=
  match lex Bare None text with
  | Some ts => simple_commands [] ts
  | None => None
  end.

(** Leading [NAME=value] words are assignments for the command's
    environment; the command proper starts at the first other word. *)
Definition is_name_start (c : ascii) : bool :=
  let n := N_of_ascii c in
  ((65 <=? n)%N && (n <=? 90)%N) || ((97 <=? n)%N && (n <=? 122)%N) || Ascii.eqb c "_".

Definition is_name_char (c : ascii) : bool :=
  let n := N_of_ascii c in
  is_name_start c || ((48 <=? n)%N && (n <=? 57)%N).

Fixpoint all_chars (p : ascii -> bool) (s : string) : bool :=
  match s with
  | EmptyString => true
  | String c r => p c && all_chars p r
  end.

Definition is_name (s : string) : bool :=
  match s with
  | EmptyString => false
  | String c r => is_name_start c && all_chars is_name_char r
  end.

Definition assignment (w : string) : option (string * string) :=
  match split_at "=" w with
  | Some (n, v) => if is_name n then Some (n, v) else None
  | None => None
  end.

Fixpoint strip_assignments (argv : list string) : list (string * string) * list string :=
  match argv with
  | w :: rest =>
      match assignment w with
      | Some kv => let '(env, cmd) := strip_assignments rest in (kv :: env, cmd)
      | None => ([], argv)
      end
  | [] => ([], [])
  end.

(** [opt_value flag argv]: the word that follows the first [flag]. *)
Fixpoint opt_value (flag : string) (argv : list string) : option string :=
  match argv with
  | f :: rest =>
      if String.eqb f flag then
        match rest with
        | v :: _ => Some v
        | [] => None
        end
      else opt_value flag rest
  | [] => None
  end.

End Shell.

(** ** JSON values and a reader for JSON text

    The body of the test request is JSON text inside a shell word, and the
    dataset cell serialises a list of JSON values.  Numbers are integers here
    (a fraction or an exponent has no reading); [\u] escapes are not read. *)

Module Json.
Import Text.

#[local] Set Warnings "-register-all".

Inductive json :=
  | JNull
  | JBool (b : bool)
  | JNum (z : Z)
  | JStr (s : string)
  | JArr (vs : list json)
  | JObj (members : list (string * json)).

Inductive jtoken :=
  | TLBrace | TRBrace | TLBracket | TRBracket | TColon | TComma
  | TStr (s : string)
  | TNum (z : Z)
  | TLit (w : string).

Inductive jmode :=
  | Top
  | InStr (acc : string)
  | InNum (neg : bool) (n : N)
  | InLit (acc : string).

Definition is_space (c : ascii) : bool :=
  existsb (Ascii.eqb c) [" "; "009"; "010"; "013"]%char.

Definition digit (c : ascii) : option N :=
  let n := N_of_ascii c in
  if (48 <=? n)%N && (n <=? 57)%N then Some (n - 48)%N else None.

Definition is_lower (c : ascii) : bool :=
  let n := N_of_ascii c in (97 <=? n)%N && (n <=? 122)%N.

Definition punct (c : ascii) : option jtoken :=
  if Ascii.eqb c "{" then Some TLBrace
  else if Ascii.eqb c "}" then Some TRBrace
  else if Ascii.eqb c "[" then Some TLBracket
  else if Ascii.eqb c "]" then Some TRBracket
  else if Ascii.eqb c ":" then Some TColon
  else if Ascii.eqb c "," then Some TComma
  else None.

Definition unescape (c : ascii) : option ascii :=
  if Ascii.eqb c dquote then Some dquote
  else if Ascii.eqb c "\" then Some "\"%char
  else if Ascii.eqb c "/" then Some "/"%char
  else if Ascii.eqb c "n" then Some "010"%char
  else if Ascii.eqb c "t" then Some "009"%char
  else if Ascii.eqb c "r" then Some "013"%char
  else if Ascii.eqb c "b" then Some "008"%char
  else if Ascii.eqb c "f" then Some "012"%char
  else None.

Definition signed (neg : bool) (n : N) : Z :=
  if neg then (- Z.of_N n)%Z else Z.of_N n.

Definition snoc (s : string) (c : ascii) : string := s +:+ String c EmptyString.

Fixpoint jlex (m : jmode) (s : string) : option (list jtoken) :=
  match s with
  | EmptyString =>
      match m with
      | Top => Some []
      | InStr _ => None
      | InNum neg n => Some [TNum (signed neg n)]
      | InLit w => Some [TLit w]
      end
  | String c r =>
      (* what a character does once the token before it is complete *)
      let after (done : list jtoken) : option (list jtoken) :=
        if is_space c then option_map (app done) (jlex Top r)
        else match punct c with
             | Some t => option_map (fun k => done ++ t :: k) (jlex Top r)
             | None => None
             end in
      match m with
      | InStr acc =>
          if Ascii.eqb c dquote then option_map (cons (TStr acc)) (jlex Top r)
          else if Ascii.eqb c "\" then
            match r with
            | EmptyString => None
            | String d r' =>
                match unescape d with
                | Some e => jlex (InStr (snoc acc e)) r'
                | None => None
                end
            end
          else jlex (InStr (snoc acc c)) r
      | InNum neg n =>
          match digit c with
          | Some d => jlex (InNum neg (10 * n + d)) r
          | None => after [TNum (signed neg n)]
          end
      | InLit w =>
          if is_lower c then jlex (InLit (snoc w c)) r
          else after [TLit w]
      | Top =>
          if Ascii.eqb c dquote then jlex (InStr EmptyString) r
          else if Ascii.eqb c "-" then
            match r with
            | EmptyString => None
            | String d r' =>
                match digit d with
                | Some n => jlex (InNum true n) r'
                | None => None
                end
            end
          else match digit c with
               | Some n => jlex (InNum false n) r
               | None =>
                   if is_lower c then jlex (InLit (String c EmptyString)) r
                   else after []
               end
      end
  end.

Definition literal (w : string) : option json :=
  if String.eqb w "true" then Some (JBool true)
  else if String.eqb w "false" then Some (JBool false)
  else if String.eqb w "null" then Some JNull
  else None.

Fixpoint parse_value (fuel : nat) (ts : list jtoken) : option (json * list jtoken) :=
  match fuel with
  | O => None
  | S f =>
      match ts with
      | TStr s :: r => Some (JStr s, r)
      | TNum z :: r => Some (JNum z, r)
      | TLit w :: r => option_map (fun v => (v, r)) (literal w)
      | TLBracket :: TRBracket :: r => Some (JArr [], r)
      | TLBracket :: r =>
          match parse_elements f r with
          | Some (vs, r') => Some (JArr vs, r')
          | None => None
          end
      | TLBrace :: TRBrace :: r => Some (JObj [], r)
      | TLBrace :: r =>
          match parse_members f r with
          | Some (ms, r') => Some (JObj ms, r')
          | None => None
          end
      | _ => None
      end
  end
with parse_elements (fuel : nat) (ts : list jtoken) : option (list json * list jtoken) :=
  match fuel with
  | O => None
  | S f =>
      match parse_value f ts with
      | Some (v, TComma :: r) =>
          match parse_elements f r with
          | Some (vs, r') => Some (v :: vs, r')
          | None => None
          end
      | Some (v, TRBracket :: r) => Some ([v], r)
      | _ => None
      end
  end
with parse_members (fuel : nat) (ts : list jtoken)
  : option (list (string * json) * list jtoken) :=
  match fuel with
  | O => None
  | S f =>
      match ts with
      | TStr k :: TColon :: r =>
          match parse_value f r with
          | Some (v, TComma :: r') =>
              match parse_members f r' with
              | Some (ms, r'') => Some ((k, v) :: ms, r'')
              | None => None
              end
          | Some (v, TRBrace :: r') => Some ([(k, v)], r')
          | _ => None
          end
      | _ => None
      end
  end.

(** A JSON text is read when its tokens make exactly one value. *)
Definition parse (s : string) : option json :=
  match jlex Top s with
  | Some ts =>
      match parse_value (2 * List.length ts + 2) ts with
      | Some (v, []) => Some v
      | _ => None
      end
  | None => None
  end.

Fixpoint assoc (k : string) (ms : list (string * json)) : option json :=
  match ms with
  | (k', v) :: r => if String.eqb k k' then Some v else assoc k r
  | [] => None
  end.

(** [field k v]: member [k] of the object [v]. *)
Definition field (k : string) (v : json) : option json :=
  match v with
  | JObj ms => assoc k ms
  | _ => None
  end.

Definition keys (v : json) : list string :=
  match v with
  | JObj ms => map fst ms
  | _ => []
  end.

End Json.

(** ** The command lines of the tools the notebook calls

    Only the options the notebook uses are read (and [-d]/[--detach], whose
    absence matters); an option outside that list gives no reading. *)

Module Cli.
Import Text Shell.

(** *** Decimal numbers and URLs *)

Fixpoint decimal (acc : N) (s : string) : option N :=
  match s with
  | EmptyString => Some acc
  | String c r =>
      match Json.digit c with
      | Some d => decimal (10 * acc + d) r
      | None => None
      end
  end.

Definition number (s : string) : option N :=
  match s with
  | EmptyString => None
  | _ => decimal 0 s
  end.

Record url := mk_url { u_host : string; u_port : option N; u_path : string }.

Definition strip_scheme (s : string) : string :=
  if starts_with "http://" s then drop 7 s
  else if starts_with "https://" s then drop 8 s
  else s.

Definition parse_url (s : string) : option url :=
  let rest := strip_scheme s in
  let '(authority, path) :=
    match split_at "/" rest with
    | Some (a, p) => (a, "/" +:+ p)
    | None => (rest, EmptyString)
    end in
  match split_at ":" authority with
  | Some (h, p) =>
      match number p with
      | Some n => Some (mk_url h (Some n) path)
      | None => None
      end
  | None => Some (mk_url authority None path)
  end.

(** *** docker run *)

Record docker_run := mk_docker_run {
  d_gpus : option string;
  d_tty : bool;
  d_interactive : bool;
  d_detach : bool;
  d_rm : bool;
  d_shm_size : option string;
  d_ipc : option string;
  d_publish : list string;
  d_env : list (string * string);
  d_image : string;
  d_args : list string
}.

Definition docker_default : docker_run :=
  mk_docker_run None false false false false None None [] [] EmptyString [].

(** A cluster of one-letter flags, as in [-ti]. *)
Fixpoint short_flags (s : string) (d : docker_run) : option docker_run :=
  match s with
  | EmptyString => Some d
  | String c r =>
      if Ascii.eqb c "t" then
        short_flags r (mk_docker_run (d_gpus d) true (d_interactive d) (d_detach d) (d_rm d)
                         (d_shm_size d) (d_ipc d) (d_publish d) (d_env d) (d_image d) (d_args d))
      else if Ascii.eqb c "i" then
        short_flags r (mk_docker_run (d_gpus d) (d_tty d) true (d_detach d) (d_rm d)
                         (d_shm_size d) (d_ipc d) (d_publish d) (d_env d) (d_image d) (d_args d))
      else if Ascii.eqb c "d" then
        short_flags r (mk_docker_run (d_gpus d) (d_tty d) (d_interactive d) true (d_rm d)
                         (d_shm_size d) (d_ipc d) (d_publish d) (d_env d) (d_image d) (d_args d))
      else None
  end.

Definition key_value (w : string) : string * string :=
  match split_at "=" w with
  | Some kv => kv
  | None => (w, EmptyString)
  end.

Fixpoint docker_options (argv : list string) (d : docker_run) : option docker_run :=
  match argv with
  | [] => None
  | w :: rest =>
      if negb (starts_with "-" w) then
        Some (mk_docker_run (d_gpus d) (d_tty d) (d_interactive d) (d_detach d) (d_rm d)
                (d_shm_size d) (d_ipc d) (d_publish d) (d_env d) w rest)
      else if String.eqb w "--rm" then
        docker_options rest
          (mk_docker_run (d_gpus d) (d_tty d) (d_interactive d) (d_detach d) true
             (d_shm_size d) (d_ipc d) (d_publish d) (d_env d) (d_image d) (d_args d))
      else if String.eqb w "--detach" then
        docker_options rest
          (mk_docker_run (d_gpus d) (d_tty d) (d_interactive d) true (d_rm d)
             (d_shm_size d) (d_ipc d) (d_publish d) (d_env d) (d_image d) (d_args d))
      else if starts_with "--ipc=" w then
        docker_options rest
          (mk_docker_run (d_gpus d) (d_tty d) (d_interactive d) (d_detach d) (d_rm d)
             (d_shm_size d) (Some (drop 6 w)) (d_publish d) (d_env d) (d_image d) (d_args d))
      else if starts_with "--" w then
        match rest with
        | v :: rest' =>
            if String.eqb w "--gpus" then
              docker_options rest'
                (mk_docker_run (Some v) (d_tty d) (d_interactive d) (d_detach d) (d_rm d)
                   (d_shm_size d) (d_ipc d) (d_publish d) (d_env d) (d_image d) (d_args d))
            else if String.eqb w "--shm-size" then
              docker_options rest'
                (mk_docker_run (d_gpus d) (d_tty d) (d_interactive d) (d_detach d) (d_rm d)
                   (Some v) (d_ipc d) (d_publish d) (d_env d) (d_image d) (d_args d))
            else None
        | [] => None
        end
      else if String.eqb w "-p" then
        match rest with
        | v :: rest' =>
            docker_options rest'
              (mk_docker_run (d_gpus d) (d_tty d) (d_interactive d) (d_detach d) (d_rm d)
                 (d_shm_size d) (d_ipc d) (d_publish d ++ [v]) (d_env d) (d_image d) (d_args d))
        | [] => None
        end
      else if String.eqb w "-e" then
        match rest with
        | v :: rest' =>
            docker_options rest'
              (mk_docker_run (d_gpus d) (d_tty d) (d_interactive d) (d_detach d) (d_rm d)
                 (d_shm_size d) (d_ipc d) (d_publish d) (d_env d ++ [key_value v])
                 (d_image d) (d_args d))
        | [] => None
        end
      else short_flags (drop 1 w) d ≫= docker_options rest
  end.

(** [docker run OPTIONS IMAGE ARGS], after the assignments that precede it. *)
Definition parse_docker_run (argv : list string)
  : option (list (string * string) * docker_run) :=
  match strip_assignments argv with
  | (vars, "docker" :: "run" :: rest) =>
      option_map (fun d => (vars, d)) (docker_options rest docker_default)
  | _ => None
  end.

Fixpoint lookup_env (k : string) (env : list (string * string)) : option string :=
  match env with
  | (k', v) :: r => if String.eqb k k' then Some v else lookup_env k r
  | [] => None
  end.

(** The host port of a [-p HOST:CONTAINER] mapping. *)
Definition host_port (mapping : string) : option N :=
  match split_at ":" mapping with
  | Some (h, _) => number h
  | None => None
  end.

(** *** curl *)

Record request := mk_request {
  r_url : string;
  r_method : option string;
  r_data : option string;
  r_headers : list string
}.

Fixpoint curl_options (argv : list string) (r : request) : option request :=
  match argv with
  | [] => Some r
  | w :: rest =>
      if negb (starts_with "-" w) then
        curl_options rest (mk_request w (r_method r) (r_data r) (r_headers r))
      else
        match rest with
        | v :: rest' =>
            if String.eqb w "-X" then
              curl_options rest' (mk_request (r_url r) (Some v) (r_data r) (r_headers r))
            else if String.eqb w "-d" then
              curl_options rest' (mk_request (r_url r) (r_method r) (Some v) (r_headers r))
            else if String.eqb w "-H" then
              curl_options rest' (mk_request (r_url r) (r_method r) (r_data r) (r_headers r ++ [v]))
            else None
        | [] => None
        end
  end.

Definition parse_curl (argv : list string) : option request :=
  match argv with
  | "curl" :: rest => curl_options rest (mk_request EmptyString None None [])
  | _ => None
  end.

(** The method curl uses: the one given with [-X], else POST when there is
    data to send, else GET. *)
Definition method_of (r : request) : string :=
  match r_method r, r_data r with
  | Some m, _ => m
  | None, Some _ => "POST"
  | None, None => "GET"
  end.

End Cli.

(** ** The notebook's steps, in document order *)

Module Pipeline.
Import Text Notebook Shell Cli.

(** How a piece of code reaches a processor: a [!] line, a [%] line magic or
    a [%%bash] cell of a code cell (the kernel runs these), or a fenced block
    of a markdown cell (prose: the reader types it into a terminal). *)
Inductive launch := ViaBang | ViaLineMagic | ViaCellMagic | ViaFence.

Inductive item :=
  | Command (how : launch) (argv : list string)
  | Python (in_code_cell : bool) (lines : list string)
  | Unread (text : string).

Definition commands (how : launch) (text : string) : list item :=
  match argvs text with
  | Some cs => map (Command how) cs
  | None => [Unread text]
  end.

(** Python lines that do something: neither blank nor a comment. *)
Definition is_code_line (l : string) : bool :=
  let t := ltrim l in
  negb (String.eqb t EmptyString) && negb (starts_with "#" t).

Definition python (in_code_cell : bool) (ls : list string) : list item :=
  match List.filter is_code_line ls with
  | [] => []
  | code => [Python in_code_cell code]
  end.

(** The Python lines of a code cell between two shell lines make one item. *)
Fixpoint items_of_stmts (py : list string) (ss : list stmt) : list item :=
  match ss with
  | [] => python true py
  | PyLine l :: r => items_of_stmts (py ++ [l]) r
  | Bang t :: r => python true py ++ commands ViaBang t ++ items_of_stmts [] r
  | LineMagic t :: r => python true py ++ commands ViaLineMagic t ++ items_of_stmts [] r
  end.

Definition is_shell_info (info : string) : bool :=
  existsb (String.eqb info) ["bash"; "Bash"; "sh"; "shell"].

Definition items_of_block (b : string * list string) : list item :=
  let '(info, body) := b in
  if is_shell_info info then commands ViaFence (unlines body)
  else if String.eqb info "python" then python false body
  else [].

Definition items_of_cell (c : cell) : list item :=
  match cell_kind c with
  | Code =>
      match code_body (source c) with
      | CellMagic name script =>
          if String.eqb name "bash" then commands ViaCellMagic script
          else [Unread script]
      | Lines ss => items_of_stmts [] ss
      end
  | Markdown => flat_map items_of_block (fenced None (source c))
  end.

Definition items : list item := flat_map items_of_cell notebook.

(** Each item with the number of its cell. *)
Fixpoint numbered (i : nat) (cs : list cell) : list (nat * item) :=
  match cs with
  | [] => []
  | c :: r => map (pair i) (items_of_cell c) ++ numbered (S i) r
  end.

(** *** What a step is *)

Inductive step :=
  | Install | Fetch | Train | Upload | ServerStart | TestRequest | Benchmark
  | Example | Unknown.

Definition step_eqb (a b : step) : bool :=
  match a, b with
  | Install, Install | Fetch, Fetch | Train, Train | Upload, Upload
  | ServerStart, ServerStart | TestRequest, TestRequest | Benchmark, Benchmark
  | Example, Example | Unknown, Unknown => true
  | _, _ => false
  end.

Definition step_of_argv (argv : list string) : step :=
  match snd (strip_assignments argv) with
  | "pip" :: "install" :: _ => Install
  | "torchrun" :: _ => Train
  | "python" :: "-m" :: "medusa.hf_utils" :: _ => Upload
  | "docker" :: "run" :: _ => ServerStart
  | "curl" :: _ => TestRequest
  | "guidellm" :: _ => Benchmark
  | _ => Unknown
  end.

Definition step_of (it : item) : step :=
  match it with
  | Command _ argv => step_of_argv argv
  | Python true ls =>
      if existsb (contains "load_dataset(") ls && existsb (contains "json.dump(") ls
      then Fetch else Unknown
  | Python false _ => Example
  | Unread _ => Unknown
  end.

Definition is_step (s : step) (it : item) : bool := step_eqb s (step_of it).

(** The five steps of the specification's sequence. *)
Definition in_sequence (it : item) : bool :=
  existsb (fun s => is_step s it) [Fetch; Train; Upload; ServerStart; Benchmark].

Definition argv_of (it : item) : list string :=
  match it with
  | Command _ argv => argv
  | _ => []
  end.

(** The first item of a step, and its argument vector. *)
Definition first_item (s : step) : option item := List.find (is_step s) items.

Definition first_argv (s : step) : list string :=
  match first_item s with
  | Some it => argv_of it
  | None => []
  end.

(** The items strictly between the first item of [a] and the first item of
    [b] after it. *)
Fixpoint drop_through (a : step) (its : list item) : list item :=
  match its with
  | [] => []
  | it :: r => if is_step a it then r else drop_through a r
  end.

Fixpoint take_until (b : step) (its : list item) : list item :=
  match its with
  | [] => []
  | it :: r => if is_step b it then [] else it :: take_until b r
  end.

Definition between (a b : step) : list item := take_until b (drop_through a items).

(** The server a [docker run] item starts, and the two the notebook has. *)
Definition docker_of (it : item) : option docker_run :=
  option_map snd (parse_docker_run (argv_of it)).

Definition server_starts : list item := List.filter (is_step ServerStart) items.

Definition medusa_server : list string := nth 0 (map argv_of server_starts) [].
Definition baseline_server : list string := nth 1 (map argv_of server_starts) [].

(** The model a [docker run] command line names: its [MODEL_ID]. *)
Definition model_id (argv : list string) : option string :=
  match parse_docker_run argv with
  | Some (_, d) => lookup_env "MODEL_ID" (d_env d)
  | None => None
  end.

(** A container's description with the [MODEL_ID] entries left out. *)
Definition without_model_id (d : docker_run) : docker_run :=
  mk_docker_run (d_gpus d) (d_tty d) (d_interactive d) (d_detach d) (d_rm d)
    (d_shm_size d) (d_ipc d) (d_publish d)
    (List.filter (fun kv => negb (String.eqb (fst kv) "MODEL_ID")) (d_env d))
    (d_image d) (d_args d).

(** The positions at which two argument vectors differ (a missing word
    differs from any word). *)
Fixpoint differing_positions (i : nat) (a b : list string) : list nat :=
  match a with
  | [] => seq i (List.length b)
  | x :: a' =>
      match b with
      | [] => i :: differing_positions (S i) a' []
      | y :: b' =>
          if String.eqb x y then differing_positions (S i) a' b'
          else i :: differing_positions (S i) a' b'
      end
  end.

(** An item that talks HTTP to a port of this machine: a curl request or a
    benchmark whose URL names a port. *)
Definition client_port (it : item) : option N :=
  match step_of it with
  | TestRequest =>
      parse_curl (argv_of it) ≫= fun r => parse_url (r_url r) ≫= u_port
  | Benchmark =>
      opt_value "--target" (argv_of it) ≫= fun t => parse_url t ≫= u_port
  | _ => None
  end.

(** The test request and its JSON body. *)
Definition test_request : option request := parse_curl (first_argv TestRequest).

Definition test_body : option Json.json :=
  (test_request ≫= r_data) ≫= Json.parse.

End Pipeline.

(** ** The acceleration figure of the narrative *)

Module Metrics.
Import Text.

(** [Acceleration = (Total Tokens (Generated + Skipped)) / (Number of Loops/Iterations)] *)
Definition acceleration (generated skipped loops : Z) : Q :=
  (inject_Z (generated + skipped) / inject_Z loops)%Q.

(** Rounding to two decimals (halves go up). *)
Definition round2 (x : Q) : Q :=
  (inject_Z (Qfloor (x * 100 + (1 # 2))) / 100)%Q.

(** The runs of decimal digits of a line, as numbers. *)
Fixpoint numbers_in (cur : option N) (s : string) : list N :=
  let close (k : list N) :=
    match cur with
    | Some n => n :: k
    | None => k
    end in
  match s with
  | EmptyString => close []
  | String c r =>
      match Json.digit c with
      | Some d =>
          numbers_in (Some (10 * match cur with Some n => n | None => 0 end + d)%N) r
      | None => close (numbers_in None r)
      end
  end.

(** The line of the narrative that instantiates the formula. *)
Definition acceleration_line : option string :=
  List.find (starts_with "acceleration = ") (Notebook.source Notebook.cell8).

End Metrics.

(** ** The dataset cell

    [[
    dataset = load_dataset("philschmid/text-to-sql-dataset-medusa")
    with open("train_dataset.json", "w") as f:
        json.dump(list(dataset["train"]["messages"]), f)
    ]]
    The cell is Python; its effect on the files of the working directory is
    written as a state-and-exception computation.  [load_dataset] and the
    JSON serialiser belong to libraries and are parameters.  A dataset is a
    map from split names to tables, a table a map from column names to
    columns. *)

Module Fetch.
Import Text Json.

(** The string literals of a Python line (no escapes occur in the cell). *)
Fixpoint literals (inside : option string) (s : string) : list string :=
  match s with
  | EmptyString => []
  | String c r =>
      match inside with
      | None => if Ascii.eqb c dquote then literals (Some EmptyString) r else literals None r
      | Some acc =>
          if Ascii.eqb c dquote then acc :: literals None r
          else literals (Some (snoc acc c)) r
      end
  end.

Record fetch_code := mk_fetch {
  f_dataset : string;   (* the argument of load_dataset *)
  f_path : string;      (* the file opened ... *)
  f_mode : string;      (* ... and how *)
  f_split : string;     (* dataset[split] *)
  f_column : string     (* dataset[split][column] *)
}.

(** The cell's three statements, read off its code lines. *)
Definition read_fetch (ls : list string) : option fetch_code :=
  match List.filter (fun l => negb (contains "import " l)) ls with
  | [load; opn; dump] =>
      if starts_with "dataset = load_dataset(" load
         && starts_with "with open(" opn
         && starts_with "json.dump(list(dataset[" (ltrim dump)
         && contains "), f)" dump
      then
        match literals None load, literals None opn, literals None dump with
        | [n], [p; m], [s; c] => Some (mk_fetch n p m s c)
        | _, _, _ => None
        end
      else None
  | _ => None
  end.

Definition notebook_fetch : option fetch_code :=
  match Pipeline.first_item Pipeline.Fetch with
  | Some (Pipeline.Python _ ls) => read_fetch ls
  | _ => None
  end.

(** The dataset the narrated example pushes the test split to. *)
Definition pushed_dataset : option string :=
  match List.find (Pipeline.is_step Pipeline.Example) Pipeline.items with
  | Some (Pipeline.Python _ ls) =>
      match List.find (starts_with "td.push_to_hub(") ls with
      | Some l => head (literals None l)
      | None => None
      end
  | _ => None
  end.

Inductive exn :=
  | LoadError (name : string)
  | KeyError (key : string)
  | ValueError (what : string).

(** Files of the working directory: name to content. *)
Abbreviation files := (gmap string string).

Definition M (A : Type) : Type := files -> files * (exn + A).

Definition ret {A} (a : A) : M A := fun fs => (fs, inr a).

Definition raise {A} (e : exn) : M A := fun fs => (fs, inl e).

Definition bind {A B} (m : M A) (k : A -> M B) : M B :=
  fun fs =>
    match m fs with
    | (fs', inr a) => k a fs'
    | (fs', inl e) => (fs', inl e)
    end.

(** [open(path, "w")] creates the file or empties it. *)
Definition open_for_writing (path mode : string) : M unit :=
  if String.eqb mode "w" then fun fs => (<[path := EmptyString]> fs, inr tt)
  else raise (ValueError mode).

(** Writing to the open file appends to what it holds. *)
Definition write (path text : string) : M unit :=
  fun fs => (<[path := default EmptyString (fs !! path) +:+ text]> fs, inr tt).

(** Subscription, [m[k]]: a missing key raises. *)
Definition getitem {V} (m : gmap string V) (k : string) : M V :=
  match m !! k with
  | Some v => ret v
  | None => raise (KeyError k)
  end.

Section Cell.

(** [datasets.load_dataset]: the dataset of that name on the hub, if it
    can be had. *)
Variable load_dataset : string -> option (gmap string (gmap string (list json))).

(** [json.dump]'s serialisation of a value. *)
Variable dumps : json -> string.

Definition call_load_dataset (name : string) : M (gmap string (gmap string (list json))) :=
  match load_dataset name with
  | Some d => ret d
  | None => raise (LoadError name)
  end.

Definition fetch_cell (c : fetch_code) : M unit :=
  bind (call_load_dataset (f_dataset c)) (fun dataset =>
  bind (open_for_writing (f_path c) (f_mode c)) (fun _ =>
  bind (getitem dataset (f_split c)) (fun split =>
  bind (getitem split (f_column c)) (fun column =>
  write (f_path c) (dumps (JArr column)))))).

(** The cell as the notebook has it. *)
Definition run_fetch : M unit :=
  match notebook_fetch with
  | Some c => fetch_cell c
  | None => raise (ValueError "dataset cell")
  end.

End Cell.

(** A compact serialiser in the layout of [json.dumps] (a comma and a colon
    are followed by a blank), for text without control characters, and a
    small hub to run the cell on. *)
Fixpoint escape (s : string) : string :=
  match s with
  | EmptyString => EmptyString
  | String c r =>
      if Ascii.eqb c dquote || Ascii.eqb c "\" then String "\" (String c (escape r))
      else String c (escape r)
  end.

Definition quote (s : string) : string := dq +:+ escape s +:+ dq.

Fixpoint render (v : json) : string :=
  match v with
  | JNull => "null"
  | JBool true => "true"
  | JBool false => "false"
  | JNum z => NilZero.string_of_int (Z.to_int z)
  | JStr s => quote s
  | JArr vs => "[" +:+ String.concat ", " (map render vs) +:+ "]"
  | JObj ms =>
      "{" +:+ String.concat ", " (map (fun kv => quote (fst kv) +:+ ": " +:+ render (snd kv)) ms)
      +:+ "}"
  end.

Definition chat (question answer : string) : json :=
  JArr [JObj [("role", JStr "user"); ("content", JStr question)];
        JObj [("role", JStr "assistant"); ("content", JStr answer)]].

Definition sample_train : list json :=
  [chat "How many heads?" "SELECT COUNT(*) FROM head"; chat "Name them" "SELECT name FROM head"].

Definition sample_hub (name : string) : option (gmap string (gmap string (list json))) :=
  if String.eqb name "philschmid/text-to-sql-dataset-medusa" then
    Some {[ "train" := {[ "messages" := sample_train ]};
            "test" := {[ "messages" := [chat "Unseen" "SELECT 1"] ]} ]}
  else None.

(** The same training messages beside another test split and more columns. *)
Definition other_hub (name : string) : option (gmap string (gmap string (list json))) :=
  if String.eqb name "philschmid/text-to-sql-dataset-medusa" then
    Some {[ "train" := {[ "messages" := sample_train; "text" := [JStr "a"; JStr "b"] ]};
            "test" := {[ "messages" := []; "text" := [] ]} ]}
  else None.

Definition sample_files : gmap string string := {[ "notes.txt" := "keep" ]}.

End Fetch.

(** ** Running the code cells

    The kernel runs the code cells from top to bottom, one statement at a
    time, and waits for each.  Markdown is never run.  A Python statement
    that raises ends the run, and so does a [%%bash] cell whose script exits
    with a status other than zero.  The shell escape [!cmd] and the [%pip]
    line magic hand the command to the system shell and keep its exit status
    in a variable; they raise nothing.  Whether a tool or a statement
    succeeds is not up to the notebook: it is the parameter [ok]. *)

Module Kernel.
Import Pipeline.

Definition kernel_runs (it : item) : bool :=
  match it with
  | Command ViaFence _ => false
  | Command _ _ => true
  | Python in_code_cell _ => in_code_cell
  | Unread _ => false
  end.

Definition raises_on_failure (it : item) : bool :=
  match it with
  | Python _ _ => true
  | Command ViaCellMagic _ => true
  | _ => false
  end.

Fixpoint run (ok : item -> bool) (its : list item) : list (item * bool) :=
  match its with
  | [] => []
  | it :: rest =>
      if kernel_runs it then
        if ok it then (it, true) :: run ok rest
        else if raises_on_failure it then [(it, false)]
        else (it, false) :: run ok rest
      else run ok rest
  end.

(** An outcome in which exactly the items of step [s] fail. *)
Definition fails_at (s : step) (it : item) : bool := negb (is_step s it).

(** [through_first p l]: [l] up to and including its first element with [p]. *)
Fixpoint through_first {A} (p : A -> bool) (l : list A) : list A :=
  match l with
  | [] => []
  | x :: r => if p x then [x] else x :: through_first p r
  end.

Definition stops (ok : item -> bool) (it : item) : bool :=
  kernel_runs it && raises_on_failure it && negb (ok it).

(** What it would mean for every failure to end the run: the run executes
    the kernel's items up to and including the first one that fails, and
    no item after it. *)
Definition ends_at_first_failure (ok : item -> bool) (its : list item) : Prop :=
  map fst (run ok its)
  = List.filter kernel_runs (through_first (fun it => kernel_runs it && negb (ok it)) its).

(** Python statements that would branch on an outcome, repeat a step or
    handle an exception; names through which an exit status is read; shell
    words that test, loop or wait. *)
Definition python_keywords : list string :=
  ["try:"; "except"; "finally"; "while "; "for "; "if "; "assert "; "raise "].

Definition status_names : list string :=
  ["_exit_code"; "returncode"; "check_call"; "retry"; "sleep("].

Definition shell_keywords : list string :=
  ["if"; "then"; "while"; "until"; "for"; "case"; "trap"; "test"; "["; "sleep";
   "timeout"; "retry"].

Definition has_control (it : item) : bool :=
  match it with
  | Unread _ => true
  | Python _ ls =>
      existsb (fun l =>
                 existsb (fun w => Text.starts_with w (Text.ltrim l)) python_keywords
                 || existsb (fun w => Text.contains w l) status_names) ls
  | Command _ argv => existsb (fun a => existsb (String.eqb a) shell_keywords) argv
  end.

End Kernel.

(** ** Servers and their clients

    What the steps share beyond files is a TCP port of the machine.  A
    [docker run] that publishes a host port has a server answer there from
    the moment the command is issued until the command completes; without
    [-d] the command is the container, so it completes when the server
    stops.  A client (the curl request, the benchmark) needs a server on the
    port its URL names at the moment it is issued. *)

Module World.
Import Pipeline Cli.

Record server := mk_server { s_port : N; s_container : docker_run }.

(** The containers that are up, by published host port. *)
Definition world := list server.

Inductive event :=
  | Begin (it : item)
  | Finish (it : item).

Definition listening (p : N) (w : world) : option docker_run :=
  option_map s_container (List.find (fun s => N.eqb (s_port s) p) w).

Definition is_up (p : N) (w : world) : bool :=
  match listening p w with
  | Some _ => true
  | None => false
  end.

Definition ports (d : docker_run) : list N := omap host_port (d_publish d).

(** Issuing a command: [None] when it cannot do its work (the port is taken,
    or nobody answers the client). *)
Definition begin (it : item) (w : world) : option world :=
  match step_of it with
  | ServerStart =>
      match docker_of it with
      | Some d =>
          if existsb (fun p => is_up p w) (ports d) then None
          else Some (map (fun p => mk_server p d) (ports d) ++ w)
      | None => None
      end
  | TestRequest | Benchmark =>
      match client_port it with
      | Some p => if is_up p w then Some w else None
      | None => None
      end
  | _ => Some w
  end.

(** The command completes. *)
Definition finish (it : item) (w : world) : world :=
  match step_of it, docker_of it with
  | ServerStart, Some d =>
      if d_detach d then w
      else List.filter (fun s => negb (existsb (N.eqb (s_port s)) (ports d))) w
  | _, _ => w
  end.

Fixpoint exec (es : list event) (w : world) : option world :=
  match es with
  | [] => Some w
  | Begin it :: r =>
      match begin it w with
      | Some w' => exec r w'
      | None => None
      end
  | Finish it :: r => exec r (finish it w)
  end.

(** Every command completes before the next is issued. *)
Definition blocking (its : list item) : list event :=
  flat_map (fun it => [Begin it; Finish it]) its.

Definition foreground_server (it : item) : bool :=
  match step_of it, docker_of it with
  | ServerStart, Some d => negb (d_detach d)
  | _, _ => false
  end.

(** A foreground server is left running while the later commands are
    issued; every other command completes before the next. *)
Fixpoint server_kept_up (its : list item) : list event :=
  match its with
  | [] => []
  | it :: r =>
      if foreground_server it then Begin it :: server_kept_up r ++ [Finish it]
      else Begin it :: Finish it :: server_kept_up r
  end.


(** The five steps of the sequence, and everything up to the benchmark. *)
Definition five : list item := firstn 5 (List.filter in_sequence items).

Definition the_server : item := nth 3 five (Unread EmptyString).
Definition the_benchmark : item := nth 4 five (Unread EmptyString).
Definition the_test_request : item :=
  default (Unread EmptyString) (first_item TestRequest).

Definition the_container : docker_run :=
  default docker_default (docker_of the_server).

(** The world once the server command of the sequence has been issued. *)
Definition server_up : world := default [] (begin the_server []).

Definition up_to_benchmark : list item :=
  take_until Benchmark items ++ match first_item Benchmark with Some b => [b] | None => [] end.

(** Events among which no server is started. *)
Definition starts_no_server (e : event) : bool :=
  match e with
  | Begin it => negb (is_step ServerStart it)
  | Finish _ => true
  end.

End World.

(** ** The narrated example that makes the benchmark prompts

    [[
    dataset = load_dataset("philschmid/text-to-sql-dataset-medusa")
    tokenizer = AutoTokenizer.from_pretrained("philschmid/code-llama-3-1-8b-text-to-sql")

    def create_text_field(samples):
        prompt = tokenizer.apply_chat_template(samples["messages"][0:2], tokenize=False)
        return {"text": prompt}

    td = dataset["test"].map(create_text_field)
    td.push_to_hub("philschmid/text-to-sql-dataset-medusa-test-chatml")
    ]]
    A row of a split is a dictionary from column names to values.  The hub
    ([load_dataset], [from_pretrained]) is a parameter, and so is what the
    tokenizer's chat template makes of a conversation; a template may
    refuse one.  [map] calls the function on every row in order and updates
    the row with the dictionary it returns. *)

Module Example.
Import Text Json.

Record example_code := mk_example {
  e_dataset : string;     (* the argument of load_dataset *)
  e_tokenizer : string;   (* the argument of from_pretrained *)
  e_column : string;      (* samples[column] *)
  e_lo : N;               (* ... [lo:hi] *)
  e_hi : N;
  e_text : string;        (* the key of the returned dictionary *)
  e_split : string;       (* dataset[split] *)
  e_push : string         (* the argument of push_to_hub *)
}.

(** The statements of the block, read off its code lines. *)
Definition read_example (ls : list string) : option example_code :=
  match List.filter (fun l => negb (contains "import " l)) ls with
  | [load; tok; def; prompt; ret; mp; push] =>
      if starts_with "dataset = load_dataset(" load
         && starts_with "tokenizer = AutoTokenizer.from_pretrained(" tok
         && String.eqb def "def create_text_field(samples):"
         && starts_with "prompt = tokenizer.apply_chat_template(samples[" (ltrim prompt)
         && contains ", tokenize=False)" prompt
         && starts_with "return {" (ltrim ret)
         && contains ": prompt}" ret
         && starts_with "td = dataset[" mp
         && contains "].map(create_text_field)" mp
         && starts_with "td.push_to_hub(" push
      then
        match Fetch.literals None load, Fetch.literals None tok,
              Fetch.literals None prompt, Metrics.numbers_in None prompt,
              Fetch.literals None ret, Fetch.literals None mp, Fetch.literals None push with
        | [n], [t], [c], [lo; hi], [x], [s], [p] => Some (mk_example n t c lo hi x s p)
        | _, _, _, _, _, _, _ => None
        end
      else None
  | _ => None
  end.

Definition notebook_example : option example_code :=
  match List.find (Pipeline.is_step Pipeline.Example) Pipeline.items with
  | Some (Pipeline.Python _ ls) => read_example ls
  | _ => None
  end.

Inductive error :=
  | LoadError (name : string)
  | KeyError (key : string)
  | TypeError (what : string)
  | TemplateError
  | Unread.

(** Python slices a string by code points: a byte [10xxxxxx] continues the
    character before it. *)
Definition is_continuation (c : ascii) : bool :=
  let n := N_of_ascii c in (128 <=? n)%N && (n <? 192)%N.

Fixpoint skip_continuation (s : string) : string :=
  match s with
  | String c r => if is_continuation c then skip_continuation r else s
  | EmptyString => EmptyString
  end.

Fixpoint drop_points (n : nat) (s : string) : string :=
  match n with
  | O => s
  | S n' =>
      match s with
      | EmptyString => EmptyString
      | String _ r => drop_points n' (skip_continuation r)
      end
  end.

Fixpoint take_points (n : nat) (s : string) : string :=
  match s with
  | EmptyString => EmptyString
  | String c r =>
      if is_continuation c then String c (take_points n r)
      else match n with
           | O => EmptyString
           | S n' => String c (take_points n' r)
           end
  end.

(** [v[lo:hi]] for bounds that are not negative: a list and a string have
    slices (out of range bounds are clipped), a dictionary cannot be indexed
    by a slice, the other values cannot be indexed at all. *)
Definition slice (lo hi : N) (v : json) : error + json :=
  let skip := N.to_nat lo in
  let size := N.to_nat (hi - lo) in
  match v with
  | JArr l => inr (JArr (firstn size (skipn skip l)))
  | JStr s => inr (JStr (take_points size (drop_points skip s)))
  | JObj _ => inl (TypeError "unhashable type: 'slice'")
  | _ => inl (TypeError "object is not subscriptable")
  end.

Definition create_text_field (c : example_code) (tokenizer : json -> option string)
  (samples : gmap string json) : error + gmap string json :=
  match samples !! e_column c with
  | None => inl (KeyError (e_column c))
  | Some v =>
      match slice (e_lo c) (e_hi c) v with
      | inl e => inl e
      | inr conversation =>
          match tokenizer conversation with
          | Some prompt => inr {[ e_text c := JStr prompt ]}
          | None => inl TemplateError
          end
      end
  end.

(** [Dataset.map]: rows in order; the first exception ends it; a row is
    updated with what the function returns (new keys win). *)
Fixpoint map_rows (f : gmap string json -> error + gmap string json)
  (rows : list (gmap string json)) : error + list (gmap string json) :=
  match rows with
  | [] => inr []
  | r :: rest =>
      match f r with
      | inl e => inl e
      | inr update =>
          match map_rows f rest with
          | inl e => inl e
          | inr out => inr ((update ∪ r) :: out)
          end
      end
  end.

Section Script.

(** The splits of a dataset on the hub, row by row. *)
Variable load_dataset : string -> option (gmap string (list (gmap string json))).

(** The chat template of the tokenizer of a model on the hub. *)
Variable from_pretrained : string -> option (json -> option string).


End Script.

(** The function and the block as the notebook has them. *)
Definition notebook_create_text_field (tokenizer : json -> option string)
  (samples : gmap string json) : error + gmap string json :=
  match notebook_example with
  | Some c => create_text_field c tokenizer samples
  | None => inl Unread
  end.


(** A template to run the function with: the roles of the conversation, one
    after the other; it refuses what is not a list of messages with a role. *)
Fixpoint roles (ms : list json) : option string :=
  match ms with
  | [] => Some EmptyString
  | m :: rest =>
      match field "role" m, roles rest with
      | Some (JStr r), Some k => Some ("<" +:+ r +:+ ">" +:+ k)
      | _, _ => None
      end
  end.

Definition sample_template (conversation : json) : option string :=
  match conversation with
  | JArr ms => roles ms
  | _ => None
  end.

Definition message (role content : string) : json :=
  JObj [("role", JStr role); ("content", JStr content)].

Definition sample_row : gmap string json :=
  {[ "messages" := JArr [message "system" "You translate to SQL";
                         message "user" "How many heads?";
                         message "assistant" "SELECT COUNT(*) FROM head"];
     "id" := JNum 7 ]}.

Definition short_row : gmap string json :=
  {[ "messages" := JArr [message "user" "Hello"] ]}.

Definition broken_row : gmap string json := {[ "id" := JNum 8 ]}.




End Example.

(** ** What the notebook sets up before it runs the tools *)

Module Setup.
Import Text Shell Pipeline.

(** The command proper, after the assignments. *)
Definition command_words (it : item) : list string := snd (strip_assignments (argv_of it)).

Definition program (it : item) : string := hd EmptyString (command_words it).

(** The name of a requirement such as [torch==2.4.0]: the text before the
    version specifier. *)
Fixpoint requirement_name (w : string) : string :=
  match w with
  | EmptyString => EmptyString
  | String c r =>
      if existsb (Ascii.eqb c) ["="; "<"; ">"; "!"; "~"; "["; ";"; " "]%char then EmptyString
      else String c (requirement_name r)
  end.

(** The packages a [pip install] names. *)
Definition installs (it : item) : list string :=
  match command_words it with
  | "pip" :: "install" :: ws =>
      map requirement_name (List.filter (fun w => negb (starts_with "-" w)) ws)
  | _ => []
  end.

(** The module a [python -m] command runs, and the package it lies in. *)
Definition python_module (it : item) : option string :=
  match command_words it with
  | "python" :: "-m" :: m :: _ => Some m
  | _ => None
  end.

Definition top_package (m : string) : string :=
  match split_at "." m with
  | Some (p, _) => p
  | None => m
  end.

(** The words of a command that name a file under a directory. *)
Definition files_under (dir : string) (it : item) : list string :=
  List.filter (fun w => starts_with (dir +:+ "/") w || starts_with ("./" +:+ dir +:+ "/") w)
    (command_words it).

(** A [pip install -e]: the package is whatever the directory named holds. *)
Definition editable_install (it : item) : bool :=
  match command_words it with
  | "pip" :: "install" :: ws => existsb (String.eqb "-e") ws
  | _ => false
  end.

(** An item that neither fetches a checkout ([git]) nor installs the
    [medusa] package. *)
Definition sets_up_no_medusa (it : item) : bool :=
  negb (String.eqb (program it) "git")
  && forallb (fun n => negb (String.eqb n "medusa")) (installs it)
  && negb (editable_install it).

End Setup.

(** ** The second server *)

Module Baseline.
Import Pipeline.




End Baseline.

(** ** More small hubs *)

Module Samples.
Import Json.

(** A dataset whose training split has no [messages] column. *)
Definition hub_without_messages (name : string)
  : option (gmap string (gmap string (list json))) :=
  if String.eqb name "philschmid/text-to-sql-dataset-medusa" then
    Some {[ "train" := {[ "text" := [JStr "a"] ]} ]}
  else None.

Definition files_with_old_data : gmap string string :=
  {[ "train_dataset.json" := "[1, 2]"; "notes.txt" := "keep" ]}.

End Samples.

(** ** The code cells on their own *)

Module Cells.
Import Pipeline.

(** The items the kernel runs, in document order. *)
Definition kernel_items : list item := List.filter Kernel.kernel_runs items.

Definition item_of (e : World.event) : item :=
  match e with
  | World.Begin it => it
  | World.Finish it => it
  end.

End Cells.

(** * Checked claims *)

Import Text Notebook Shell Json Cli Pipeline.

(** Splits a conjunction into its parts; closed parts are then settled by
    evaluation. *)
Ltac conjuncts := repeat match goal with |- _ /\ _ => split end.

(** ** Reading the notebook *)

(** Every command text of the notebook has a reading as simple commands. *)
Lemma every_item_is_read :
  forallb (fun it => match it with Unread _ => false | _ => true end) items = true.
Proof. vm_compute. reflexivity. Qed.

(** The steps of the notebook in document order, with their cells. *)
Lemma steps_in_document_order :
  map (fun '(i, it) => (i, step_of it)) (numbered 0 notebook)
  = [(1, Install); (3, Fetch); (5, Train); (7, Upload); (8, ServerStart);
     (10, TestRequest); (11, Example); (12, Install); (13, Benchmark);
     (13, ServerStart)].
Proof. vm_compute. reflexivity. Qed.

Lemma numbered_items i cs : map snd (numbered i cs) = flat_map items_of_cell cs.
Proof.
  revert i. induction cs as [|c cs IH]; intros i; simpl; [reflexivity|].
  rewrite map_app, IH, map_map. simpl. rewrite map_id. reflexivity.
Qed.

(** ** The acceleration figure *)

(** C1: the notebook's line gives the counts 17687, 27101 and 27101; the
    acceleration formula at these counts is the rational
    (17687 + 27101) / 27101, which lies strictly between 1.645 and 1.655 and
    so rounds to 1.65. *)
Theorem acceleration_rounds_to_1_65 :
  option_map (Metrics.numbers_in None) Metrics.acceleration_line
    = Some [17687; 27101; 27101; 1; 65]%N
  /\ (Metrics.acceleration 17687 27101 27101 == (17687 + 27101) # 27101)%Q
  /\ (Metrics.round2 (Metrics.acceleration 17687 27101 27101) == 165 # 100)%Q
  /\ (1645 # 1000 < Metrics.acceleration 17687 27101 27101)%Q
  /\ (Metrics.acceleration 17687 27101 27101 < 1655 # 1000)%Q.
Proof.
  conjuncts; vm_compute; reflexivity.
Qed.

(** ** The dataset cell *)

Section FetchFacts.
Import Fetch.
Variable load_dataset : string -> option (gmap string (gmap string (list json))).
Variable dumps : json -> string.

Lemma notebook_fetch_read :
  notebook_fetch
  = Some (mk_fetch "philschmid/text-to-sql-dataset-medusa" "train_dataset.json" "w"
            "train" "messages").
Proof. vm_compute. reflexivity. Qed.

(** When the column is there, the cell leaves its serialisation in the file. *)
Lemma run_fetch_ok (fs : gmap string string) d t col :
  load_dataset "philschmid/text-to-sql-dataset-medusa" = Some d ->
  d !! "train" = Some t ->
  t !! "messages" = Some col ->
  run_fetch load_dataset dumps fs
  = (<["train_dataset.json" := dumps (JArr col)]> fs, inr tt).
Proof.
  intros Hd Ht Hc.
  unfold run_fetch. rewrite notebook_fetch_read.
  unfold fetch_cell, bind, call_load_dataset, open_for_writing, getitem, write, ret.
  cbn [f_dataset f_path f_mode f_split f_column].
  rewrite Hd. change (String.eqb "w" "w") with true. cbn iota.
  rewrite Ht, Hc. cbn iota.
  rewrite lookup_insert_eq. cbn [default].
  rewrite insert_insert_eq. reflexivity.
Qed.

(** Whatever happens, no file but the one opened changes. *)
Lemma run_fetch_frame (fs : gmap string string) p :
  p <> "train_dataset.json" ->
  fst (run_fetch load_dataset dumps fs) !! p = fs !! p.
Proof.
  intros Hp.
  unfold run_fetch. rewrite notebook_fetch_read.
  unfold fetch_cell, bind, call_load_dataset, open_for_writing, getitem, write, ret, raise.
  cbn [f_dataset f_path f_mode f_split f_column].
  destruct (load_dataset _) as [d|]; [|reflexivity].
  change (String.eqb "w" "w") with true. cbn iota.
  destruct (d !! "train") as [t|]; cbn [fst].
  - destruct (t !! "messages") as [col|]; cbn [fst].
    + rewrite !lookup_insert_ne by congruence. reflexivity.
    + rewrite lookup_insert_ne by congruence. reflexivity.
  - rewrite lookup_insert_ne by congruence. reflexivity.
Qed.

End FetchFacts.

(** C2: when the hub has the dataset with a [train] split and a [messages]
    column, the dataset cell leaves in [train_dataset.json] the serialisation
    of one JSON list, the column; and that file name is the value of the
    training command's [--data_path]. *)
Theorem dataset_file_is_training_data_path
  (load_dataset : string -> option (gmap string (gmap string (list json))))
  (dumps : json -> string) (fs : gmap string string) d t col :
  load_dataset "philschmid/text-to-sql-dataset-medusa" = Some d ->
  d !! "train" = Some t ->
  t !! "messages" = Some col ->
  Fetch.run_fetch load_dataset dumps fs
    = (<["train_dataset.json" := dumps (JArr col)]> fs, inr tt)
  /\ opt_value "--data_path" (first_argv Train) = Some "train_dataset.json"
  /\ option_map Fetch.f_path Fetch.notebook_fetch
     = opt_value "--data_path" (first_argv Train).
Proof.
  intros Hd Ht Hc. split; [|split].
  - eapply run_fetch_ok; eassumption.
  - vm_compute. reflexivity.
  - vm_compute. reflexivity.
Qed.

(** C2 on a small hub: two training conversations and an unseen test one. *)
Lemma dataset_file_is_training_data_path_witness :
  Fetch.sample_hub "philschmid/text-to-sql-dataset-medusa"
    = Some {[ "train" := {[ "messages" := Fetch.sample_train ]};
              "test" := {[ "messages" := [Fetch.chat "Unseen" "SELECT 1"] ]} ]}
  /\ Fetch.run_fetch Fetch.sample_hub Fetch.render Fetch.sample_files
     = (<["train_dataset.json" := Fetch.render (JArr Fetch.sample_train)]> Fetch.sample_files,
        inr tt).
Proof.
  split; [reflexivity|].
  exact (proj1 (dataset_file_is_training_data_path Fetch.sample_hub Fetch.render
                  Fetch.sample_files
                  {[ "train" := {[ "messages" := Fetch.sample_train ]};
                     "test" := {[ "messages" := [Fetch.chat "Unseen" "SELECT 1"] ]} ]}
                  {[ "messages" := Fetch.sample_train ]} Fetch.sample_train
                  eq_refl eq_refl eq_refl)).
Defined.

(** C9: what the dataset cell leaves on disk is decided by the [messages]
    column of the [train] split alone: two hubs that agree on that column
    (and differ in the test split or in other columns) give the same files;
    no file other than [train_dataset.json] is created or changed; and the
    cell is the only Python the kernel runs. *)
Theorem only_train_messages_reach_the_disk
  (hub1 hub2 : string -> option (gmap string (gmap string (list json))))
  (dumps : json -> string) (fs : gmap string string) d1 d2 t1 t2 col :
  hub1 "philschmid/text-to-sql-dataset-medusa" = Some d1 ->
  d1 !! "train" = Some t1 ->
  t1 !! "messages" = Some col ->
  hub2 "philschmid/text-to-sql-dataset-medusa" = Some d2 ->
  d2 !! "train" = Some t2 ->
  t2 !! "messages" = Some col ->
  Fetch.run_fetch hub1 dumps fs = Fetch.run_fetch hub2 dumps fs
  /\ (forall p, p <> "train_dataset.json" ->
        fst (Fetch.run_fetch hub1 dumps fs) !! p = fs !! p)
  /\ dom (fst (Fetch.run_fetch hub1 dumps fs)) = {[ "train_dataset.json" ]} ∪ dom fs
  /\ map step_of
       (List.filter (fun it => match it with Python true _ => true | _ => false end) items)
     = [Fetch].
Proof.
  intros H1 H2 H3 H4 H5 H6.
  pose proof (run_fetch_ok hub1 dumps fs d1 t1 col H1 H2 H3) as E1.
  pose proof (run_fetch_ok hub2 dumps fs d2 t2 col H4 H5 H6) as E2.
  split; [congruence|]. split; [|split].
  - intros p Hp. apply run_fetch_frame. exact Hp.
  - rewrite E1. cbn [fst]. apply dom_insert_L.
  - vm_compute. reflexivity.
Qed.

(** C9 on two small hubs with the same training messages, another test
    split and one more column; a file that was there before is kept. *)
Lemma only_train_messages_reach_the_disk_witness :
  Fetch.run_fetch Fetch.sample_hub Fetch.render Fetch.sample_files
    = Fetch.run_fetch Fetch.other_hub Fetch.render Fetch.sample_files
  /\ fst (Fetch.run_fetch Fetch.sample_hub Fetch.render Fetch.sample_files) !! "notes.txt"
     = Some "keep".
Proof.
  pose proof (only_train_messages_reach_the_disk Fetch.sample_hub Fetch.other_hub
                Fetch.render Fetch.sample_files
                {[ "train" := {[ "messages" := Fetch.sample_train ]};
                   "test" := {[ "messages" := [Fetch.chat "Unseen" "SELECT 1"] ]} ]}
                {[ "train" := {[ "messages" := Fetch.sample_train;
                                 "text" := [JStr "a"; JStr "b"] ]};
                   "test" := {[ "messages" := []; "text" := [] ]} ]}
                {[ "messages" := Fetch.sample_train ]}
                {[ "messages" := Fetch.sample_train; "text" := [JStr "a"; JStr "b"] ]}
                Fetch.sample_train
                eq_refl eq_refl eq_refl eq_refl eq_refl eq_refl) as [Hsame [Hframe _]].
  split; [exact Hsame|].
  rewrite (Hframe "notes.txt"); [reflexivity | discriminate].
Defined.

(** ** Hand-offs between the steps *)

(** C3, as stated, fails: the folder handed to the upload utility is not the
    training command's output directory. *)
Lemma upload_folder_is_not_output_dir :
  opt_value "--folder" (first_argv Upload) <> opt_value "--output_dir" (first_argv Train).
Proof. vm_compute. discriminate. Qed.

(** C3, amended: the training command is given the output directory
    [code_llama31]; the upload utility is given the folder
    [code_llama31_medusa], which is that name followed by [_medusa]. *)
Theorem upload_folder_is_output_dir_with_suffix :
  opt_value "--output_dir" (first_argv Train) = Some "code_llama31"
  /\ opt_value "--folder" (first_argv Upload) = Some "code_llama31_medusa"
  /\ opt_value "--folder" (first_argv Upload)
     = option_map (fun dir => dir +:+ "_medusa") (opt_value "--output_dir" (first_argv Train)).
Proof. conjuncts; vm_compute; reflexivity. Qed.

(** C4: the repository the upload utility pushes to is, word for word, the
    [MODEL_ID] the first inference server is started with. *)
Theorem uploaded_repo_is_served_model_id :
  opt_value "--repo" (first_argv Upload)
    = Some "philschmid/code-llama-3-1-8b-text-to-sql-medusa"
  /\ model_id (first_argv ServerStart) = opt_value "--repo" (first_argv Upload)
  /\ first_argv ServerStart = medusa_server.
Proof. conjuncts; vm_compute; reflexivity. Qed.

(** X1: the benchmark is pointed at the port the server publishes, names
    the model the server was started with, and reads the dataset the
    narrated example pushes the test split to. *)
Theorem benchmark_is_pointed_at_the_server :
  (opt_value "--target" (first_argv Benchmark) ≫= parse_url)
    = Some (mk_url "localhost" (Some 8080%N) "/v1")
  /\ World.ports World.the_container = [8080%N]
  /\ opt_value "--model" (first_argv Benchmark) = model_id medusa_server
  /\ opt_value "--data" (first_argv Benchmark) = Fetch.pushed_dataset
  /\ Fetch.pushed_dataset = Some "philschmid/text-to-sql-dataset-medusa-test-chatml".
Proof. conjuncts; vm_compute; reflexivity. Qed.

(** X2: the model the training starts from is the model the baseline
    server serves. *)
Theorem training_starts_from_the_baseline_model :
  opt_value "--model_name_or_path" (first_argv Train)
    = Some "philschmid/code-llama-3-1-8b-text-to-sql"
  /\ model_id baseline_server = opt_value "--model_name_or_path" (first_argv Train).
Proof. conjuncts; vm_compute; reflexivity. Qed.

(** C8: the two [docker run] command lines differ in one word only, the
    [MODEL_ID] assignment; with it left out they describe the same
    container: same GPU selection, shared memory, IPC mode, port mapping,
    [NUM_SHARD], [MAX_INPUT_TOKENS], [MAX_TOTAL_TOKENS] and image. *)
Theorem server_commands_differ_only_in_model_id :
  differing_positions 0 medusa_server baseline_server = [13]
  /\ nth 13 medusa_server EmptyString
     = "MODEL_ID=philschmid/code-llama-3-1-8b-text-to-sql-medusa"
  /\ nth 13 baseline_server EmptyString
     = "MODEL_ID=philschmid/code-llama-3-1-8b-text-to-sql"
  /\ option_map (fun vd => (fst vd, without_model_id (snd vd))) (parse_docker_run medusa_server)
     = Some ([("CUDA_VISIBLE_DEVICES", "0")],
             mk_docker_run (Some "all") true true false true (Some "1g") (Some "host")
               ["8080:80"]
               [("NUM_SHARD", "1"); ("MAX_INPUT_TOKENS", "4096"); ("MAX_TOTAL_TOKENS", "6000")]
               "ghcr.io/huggingface/text-generation-inference:sha-b70ae09" [])
  /\ option_map (fun vd => (fst vd, without_model_id (snd vd))) (parse_docker_run baseline_server)
     = option_map (fun vd => (fst vd, without_model_id (snd vd))) (parse_docker_run medusa_server)
  /\ model_id medusa_server = Some "philschmid/code-llama-3-1-8b-text-to-sql-medusa"
  /\ model_id baseline_server = Some "philschmid/code-llama-3-1-8b-text-to-sql".
Proof. conjuncts; vm_compute; reflexivity. Qed.

(** ** The test request *)

(** C5: between the first server start and the benchmark there are three
    items, of which exactly one is an HTTP request; it is a POST to
    [localhost:8080/v1/chat/completions] whose body carries one message, of
    role [user], with ["stream": false] and ["max_tokens": 250]. *)
Theorem one_test_request_between_server_and_benchmark :
  map step_of (between ServerStart Benchmark) = [TestRequest; Example; Install]
  /\ List.filter (is_step TestRequest) (between ServerStart Benchmark)
     = [World.the_test_request]
  /\ List.length (List.filter (is_step TestRequest) items) = 1
  /\ option_map method_of test_request = Some "POST"
  /\ option_map r_url test_request = Some "localhost:8080/v1/chat/completions"
  /\ (test_request ≫= fun r => parse_url (r_url r))
     = Some (mk_url "localhost" (Some 8080%N) "/v1/chat/completions")
  /\ option_map keys test_body = Some ["model"; "messages"; "stream"; "max_tokens"]
  /\ (test_body ≫= field "messages")
     = Some (JArr [JObj [("role", JStr "user");
                         ("content", JStr "Write a poem for my three year old")]])
  /\ (test_body ≫= field "stream") = Some (JBool false)
  /\ (test_body ≫= field "max_tokens") = Some (JNum 250).
Proof. conjuncts; vm_compute; reflexivity. Qed.

(** ** Order of the steps, and what is running when *)

Section WorldFacts.
Import World.

Lemma kept_out_is_down (ps : list N) (p : N) (w : world) :
  In p ps ->
  is_up p (List.filter (fun s => negb (existsb (N.eqb (s_port s)) ps)) w) = false.
Proof.
  intros Hin. unfold is_up, listening.
  induction w as [|s w IH]; simpl; [reflexivity|].
  destruct (existsb (N.eqb (s_port s)) ps) eqn:Hs; simpl; [exact IH|].
  destruct (N.eqb (s_port s) p) eqn:Hp; [|exact IH].
  apply N.eqb_eq in Hp. subst p.
  assert (existsb (N.eqb (s_port s)) ps = true) as Hex.
  { apply existsb_exists. exists (s_port s). split; [exact Hin | apply N.eqb_refl]. }
  congruence.
Qed.

(** Once a foreground server command has completed, nothing answers on
    the ports it published. *)
Lemma finished_server_is_down (it : item) (d : docker_run) (p : N) (w : world) :
  step_of it = ServerStart ->
  docker_of it = Some d ->
  d_detach d = false ->
  In p (ports d) ->
  is_up p (finish it w) = false.
Proof.
  intros Hs Hd Hf Hp. unfold finish. rewrite Hs, Hd, Hf.
  apply kept_out_is_down. exact Hp.
Qed.

(** A client whose port is down cannot do its work. *)
Lemma client_needs_server (it : item) (p : N) (w : world) :
  step_of it = TestRequest \/ step_of it = Benchmark ->
  client_port it = Some p ->
  is_up p w = false ->
  begin it w = None.
Proof.
  intros Hs Hp Hdown. unfold begin.
  destruct Hs as [Hs|Hs]; rewrite Hs, Hp, Hdown; reflexivity.
Qed.

Lemma filter_keeps_down (f : server -> bool) (p : N) (w : world) :
  is_up p w = false -> is_up p (List.filter f w) = false.
Proof.
  unfold is_up, listening.
  induction w as [|s w IH]; simpl; [reflexivity|].
  destruct (N.eqb (s_port s) p) eqn:Hp; simpl; [discriminate|].
  intros Hdown. destruct (f s); simpl; [rewrite Hp|]; apply IH; exact Hdown.
Qed.

Lemma finish_keeps_down (it : item) (p : N) (w : world) :
  is_up p w = false -> is_up p (finish it w) = false.
Proof.
  intros Hdown. unfold finish.
  destruct (step_of it); try exact Hdown.
  destruct (docker_of it) as [d|]; [|exact Hdown].
  destruct (d_detach d); [exact Hdown|].
  apply filter_keeps_down. exact Hdown.
Qed.

Lemma begin_keeps_down (it : item) (p : N) (w w' : world) :
  is_step ServerStart it = false ->
  begin it w = Some w' ->
  is_up p w = false -> is_up p w' = false.
Proof.
  unfold is_step, begin. intros Hs Hb Hdown. revert Hs Hb.
  destruct (step_of it); cbn [step_eqb]; intros Hs Hb; try discriminate;
    try (injection Hb as <-; exact Hdown);
    revert Hb;
    (destruct (client_port it) as [c|]; [|discriminate]);
    (destruct (is_up c w); [|discriminate]);
    intros Hb; injection Hb as <-; exact Hdown.
Qed.

(** A port that is down stays down as long as no server is started. *)
Lemma down_stays_down (es : list event) (p : N) (w w' : world) :
  forallb starts_no_server es = true ->
  exec es w = Some w' ->
  is_up p w = false -> is_up p w' = false.
Proof.
  revert w. induction es as [|e es IH]; intros w Hq Hx Hdown.
  - injection Hx as <-. exact Hdown.
  - simpl in Hq. apply andb_true_iff in Hq as [He Hq].
    destruct e as [it|it]; simpl in Hx.
    + destruct (begin it w) as [w1|] eqn:Hb; [|discriminate].
      apply (IH w1 Hq Hx).
      apply (begin_keeps_down it p w w1); [|exact Hb|exact Hdown].
      simpl in He. apply negb_true_iff in He. exact He.
    + apply (IH (finish it w) Hq Hx). apply finish_keeps_down. exact Hdown.
Qed.

Lemma exec_app (es1 es2 : list event) (w : world) :
  exec (es1 ++ es2) w = exec es1 w ≫= exec es2.
Proof.
  revert w. induction es1 as [|e es1 IH]; intros w; [reflexivity|].
  destruct e as [it|it]; simpl.
  - destruct (begin it w); [apply IH|reflexivity].
  - apply IH.
Qed.

Lemma the_server_read :
  step_of the_server = ServerStart
  /\ docker_of the_server = Some the_container
  /\ d_detach the_container = false
  /\ ports the_container = [8080%N].
Proof. conjuncts; vm_compute; reflexivity. Qed.

Lemma client_after_server_completed (it : item) (w : world) :
  step_of it = TestRequest \/ step_of it = Benchmark ->
  client_port it = Some 8080%N ->
  begin it (finish the_server w) = None.
Proof.
  intros Hs Hp.
  destruct the_server_read as [Hstep [Hd [Hf Hports]]].
  apply (client_needs_server it 8080%N); [exact Hs | exact Hp |].
  apply (finished_server_is_down the_server the_container); try assumption.
  rewrite Hports. left. reflexivity.
Qed.

(** Once a foreground server command has completed, a client of its port
    fails however many other commands come first, unless a server is
    started. *)
Lemma client_after_completed_server
  (srv it : item) (d : docker_run) (p : N) (es : list event) (w : world) :
  step_of srv = ServerStart ->
  docker_of srv = Some d ->
  d_detach d = false ->
  In p (ports d) ->
  step_of it = TestRequest \/ step_of it = Benchmark ->
  client_port it = Some p ->
  forallb starts_no_server es = true ->
  exec (Finish srv :: es ++ [Begin it]) w = None.
Proof.
  intros Hstep Hd Hf Hin Hs Hp Hq.
  pose proof (finished_server_is_down srv d p w Hstep Hd Hf Hin) as Hdown.
  change (exec (Finish srv :: es ++ [Begin it]) w)
    with (exec (es ++ [Begin it]) (finish srv w)).
  generalize dependent (finish srv w). intros w0 Hdown.
  rewrite exec_app.
  destruct (exec es w0) as [w'|] eqn:Hx; [|reflexivity].
  pose proof (down_stays_down es p w0 w' Hq Hx Hdown) as Hdown'.
  change (begin it w' ≫= exec [] = None).
  rewrite (client_needs_server it p w' Hs Hp Hdown'). reflexivity.
Qed.

Lemma client_after_server_completed_later (it : item) (es : list event) (w : world) :
  step_of it = TestRequest \/ step_of it = Benchmark ->
  client_port it = Some 8080%N ->
  forallb starts_no_server es = true ->
  exec (Finish the_server :: es ++ [Begin it]) w = None.
Proof.
  intros Hs Hp Hq.
  destruct the_server_read as [Hstep [Hd [Hf Hports]]].
  apply (client_after_completed_server the_server it the_container 8080%N es w);
    try assumption.
  rewrite Hports. left. reflexivity.
Qed.

End WorldFacts.

(** C6, as stated, fails: when each of the five commands completes before
    the next is issued, the server is gone by the time the benchmark is
    issued, and the benchmark has nothing to talk to. *)
Lemma blocking_sequence_cannot_run :
  map step_of World.five = [Fetch; Train; Upload; ServerStart; Benchmark]
  /\ ~ (exists w, World.exec (World.blocking World.five) [] = Some w).
Proof.
  split; [vm_compute; reflexivity|].
  intros [w Hw]. vm_compute in Hw. discriminate.
Qed.

(** C6, amended: the five steps stand in the order dataset fetch, training,
    upload, server start, benchmark, one item each.  The first three are
    statements of code cells, which the kernel runs one at a time; the
    server start and the benchmark are command lines in markdown.  The
    server start is a [docker run] without [-d]: it has not completed when
    the test request and the benchmark are issued.  With the server command
    left running, each other command can complete before the next is
    issued; once the server command has completed, neither the test request
    nor the benchmark can run. *)
Theorem sequence_order_with_server_kept_up :
  map step_of World.five = [Fetch; Train; Upload; ServerStart; Benchmark]
  /\ map (fun s => List.length (List.filter (is_step s) (take_until Benchmark items)))
       [Fetch; Train; Upload; ServerStart]
     = [1; 1; 1; 1]
  /\ map Kernel.kernel_runs World.five = [true; true; true; false; false]
  /\ map (fun x => step_of (fst x)) (Kernel.run (fun _ => true) World.five)
     = [Fetch; Train; Upload]
  /\ World.foreground_server World.the_server = true
  /\ World.server_kept_up World.five
     = World.blocking (firstn 3 World.five)
       ++ [World.Begin World.the_server; World.Begin World.the_benchmark;
           World.Finish World.the_benchmark; World.Finish World.the_server]
  /\ World.exec (World.server_kept_up World.five) [] = Some []
  /\ World.exec (World.server_kept_up World.up_to_benchmark) [] = Some []
  /\ (forall w, World.begin World.the_test_request (World.finish World.the_server w) = None)
  /\ (forall es w,
        forallb World.starts_no_server es = true ->
        World.exec (World.Finish World.the_server :: es ++ [World.Begin World.the_benchmark]) w
        = None).
Proof.
  conjuncts; [vm_compute; reflexivity .. | intros w | intros es w Hq].
  - apply client_after_server_completed.
    + left. vm_compute. reflexivity.
    + vm_compute. reflexivity.
  - apply client_after_server_completed_later.
    + right. vm_compute. reflexivity.
    + vm_compute. reflexivity.
    + exact Hq.
Qed.

(** C6 on a concrete schedule: the server command completes, the test
    request is tried, then the benchmark. *)
Lemma sequence_order_with_server_kept_up_witness :
  forallb World.starts_no_server
    [World.Begin World.the_test_request; World.Finish World.the_test_request] = true
  /\ World.exec
       (World.Finish World.the_server
          :: [World.Begin World.the_test_request; World.Finish World.the_test_request]
             ++ [World.Begin World.the_benchmark])
       World.server_up
     = None.
Proof.
  split; [vm_compute; reflexivity|].
  pose proof sequence_order_with_server_kept_up as H.
  do 9 (destruct H as [_ H]).
  apply H. vm_compute. reflexivity.
Defined.

(** ** Failures *)

Section KernelFacts.
Import Kernel.

(** A run executes the kernel's items in order, each once, up to and
    including the first one that fails and raises; it does nothing else. *)
Lemma run_characterised (ok : item -> bool) (its : list item) :
  run ok its
  = map (fun it => (it, ok it))
      (List.filter kernel_runs (through_first (stops ok) its)).
Proof.
  induction its as [|it its IH]; [reflexivity|].
  cbn [run through_first].
  change (stops ok it) with (kernel_runs it && raises_on_failure it && negb (ok it)).
  destruct (kernel_runs it) eqn:Hk, (ok it) eqn:Hok, (raises_on_failure it) eqn:Hr;
    cbn [andb negb List.filter]; rewrite ?Hk; cbn [map]; rewrite ?Hok, ?IH; reflexivity.
Qed.

End KernelFacts.

(** C7, as stated, fails: when the training command fails, the run does not
    end there; the upload, the test request and the second install are
    still executed. *)
Lemma failed_training_does_not_stop_the_run :
  ~ Kernel.ends_at_first_failure (Kernel.fails_at Train) items
  /\ map (fun x => (step_of (fst x), snd x)) (Kernel.run (Kernel.fails_at Train) items)
     = [(Install, true); (Fetch, true); (Train, false); (Upload, true);
        (TestRequest, true); (Install, true)].
Proof.
  split; [|vm_compute; reflexivity].
  unfold Kernel.ends_at_first_failure. intros H.
  apply (f_equal (@List.length item)) in H. vm_compute in H. discriminate.
Qed.

(** C7, amended: no item of the notebook inspects an outcome, repeats a
    step or handles an exception, and a run executes the kernel's items in
    order, each at most once, and nothing else.  The run ends at the first
    failure that raises: a failure of the dataset cell (in which case no
    file has been touched when the dataset cannot be loaded) or of the
    [%%bash] test request.  The exit status of a [!] or [%pip] line (the
    installs, the training, the upload) is not looked at: the run goes on
    after such a failure. *)
Theorem run_has_no_recovery_and_stops_only_on_raise :
  (forall ok its,
     Kernel.run ok its
     = map (fun it => (it, ok it))
         (List.filter Kernel.kernel_runs (Kernel.through_first (Kernel.stops ok) its)))
  /\ existsb Kernel.has_control items = false
  /\ map step_of
       (List.filter (fun it => Kernel.kernel_runs it && Kernel.raises_on_failure it) items)
     = [Fetch; TestRequest]
  /\ map step_of
       (List.filter (fun it => Kernel.kernel_runs it && negb (Kernel.raises_on_failure it)) items)
     = [Install; Train; Upload; Install]
  /\ map (fun x => (step_of (fst x), snd x)) (Kernel.run (Kernel.fails_at Fetch) items)
     = [(Install, true); (Fetch, false)]
  /\ map (fun x => (step_of (fst x), snd x)) (Kernel.run (Kernel.fails_at TestRequest) items)
     = [(Install, true); (Fetch, true); (Train, true); (Upload, true); (TestRequest, false)]
  /\ map (fun x => (step_of (fst x), snd x)) (Kernel.run (Kernel.fails_at Upload) items)
     = [(Install, true); (Fetch, true); (Train, true); (Upload, false);
        (TestRequest, true); (Install, true)]
  /\ (forall dumps fs,
        Fetch.run_fetch (fun _ => None) dumps fs
        = (fs, inl (Fetch.LoadError "philschmid/text-to-sql-dataset-medusa"))).
Proof.
  split; [exact run_characterised|].
  conjuncts; try (vm_compute; reflexivity).
Qed.

(** ** How the test request and the server name a model *)

(** X13: the body of the test request names the model [tgi], which is not
    the identifier the checkpoint was uploaded under; the server command
    names a model in one place only, its [MODEL_ID] (there is one such
    assignment and no argument after the image), and that is the uploaded
    identifier; the request goes to the port this command publishes. *)
Theorem request_names_tgi_not_the_uploaded_model :
  (test_body ≫= field "model") = Some (JStr "tgi")
  /\ Some "tgi" <> opt_value "--repo" (first_argv Upload)
  /\ model_id medusa_server = opt_value "--repo" (first_argv Upload)
  /\ model_id medusa_server = Some "philschmid/code-llama-3-1-8b-text-to-sql-medusa"
  /\ option_map (fun vd => (List.length (List.filter (fun kv => String.eqb (fst kv) "MODEL_ID")
                                           (d_env (snd vd))),
                            d_args (snd vd)))
       (parse_docker_run medusa_server)
     = Some (1, [])
  /\ client_port World.the_test_request = Some 8080%N
  /\ World.ports World.the_container = [8080%N].
Proof.
  conjuncts; try (vm_compute; reflexivity).
  vm_compute. discriminate.
Qed.

(** * Further properties of the notebook's code *)

(** ** The dataset cell: failures and repetition *)

(** X3: when the dataset loads but has no [train] split, or the split has
    no [messages] column, the cell raises a key error after the file has been
    opened for writing: [train_dataset.json] is left empty, whatever it held
    before.  When the dataset cannot be loaded nothing has been opened and no
    file changes. *)
Theorem missing_column_empties_the_file
  (load_dataset : string -> option (gmap string (gmap string (list json))))
  (dumps : json -> string) (fs : gmap string string) d :
  load_dataset "philschmid/text-to-sql-dataset-medusa" = Some d ->
  (d !! "train" ≫= fun t => t !! "messages") = None ->
  (exists k, snd (Fetch.run_fetch load_dataset dumps fs) = inl (Fetch.KeyError k))
  /\ fst (Fetch.run_fetch load_dataset dumps fs) = <["train_dataset.json" := EmptyString]> fs
  /\ (forall failing,
        failing "philschmid/text-to-sql-dataset-medusa" = None ->
        fst (Fetch.run_fetch failing dumps fs) = fs).
Proof.
  intros Hd Hcol.
  assert (forall ld, Fetch.run_fetch ld dumps fs
                     = Fetch.fetch_cell ld dumps
                         (Fetch.mk_fetch "philschmid/text-to-sql-dataset-medusa"
                            "train_dataset.json" "w" "train" "messages") fs) as Hrun.
  { intros ld. unfold Fetch.run_fetch. rewrite notebook_fetch_read. reflexivity. }
  rewrite !Hrun.
  unfold Fetch.fetch_cell, Fetch.bind, Fetch.call_load_dataset, Fetch.open_for_writing,
    Fetch.getitem, Fetch.write, Fetch.ret, Fetch.raise.
  cbn [Fetch.f_dataset Fetch.f_path Fetch.f_mode Fetch.f_split Fetch.f_column].
  rewrite Hd. change (String.eqb "w" "w") with true. cbn iota.
  split; [|split].
  - destruct (d !! "train") as [t|]; cbn in Hcol |- *.
    + rewrite Hcol. eexists. reflexivity.
    + eexists. reflexivity.
  - destruct (d !! "train") as [t|]; cbn in Hcol |- *.
    + rewrite Hcol. reflexivity.
    + reflexivity.
  - intros failing Hf. rewrite Hrun.
    unfold Fetch.fetch_cell, Fetch.bind, Fetch.call_load_dataset, Fetch.raise.
    cbn [Fetch.f_dataset]. rewrite Hf. reflexivity.
Qed.

(** X3 on a hub whose training split lacks the column, with an older
    [train_dataset.json] in place. *)
Lemma missing_column_empties_the_file_witness :
  fst (Fetch.run_fetch Samples.hub_without_messages Fetch.render Samples.files_with_old_data)
    !! "train_dataset.json" = Some EmptyString
  /\ snd (Fetch.run_fetch Samples.hub_without_messages Fetch.render Samples.files_with_old_data)
     = inl (Fetch.KeyError "messages").
Proof.
  pose proof (missing_column_empties_the_file Samples.hub_without_messages Fetch.render
                Samples.files_with_old_data
                {[ "train" := {[ "text" := [JStr "a"] ]} ]} eq_refl eq_refl)
    as [_ [Hfiles _]].
  split; [rewrite Hfiles; apply lookup_insert_eq | vm_compute; reflexivity].
Defined.

(** X4: running the dataset cell again changes nothing more: the second run
    gives the files and the outcome of the first.  When the dataset loads,
    what [train_dataset.json] held before has no influence on the result: the
    file is written anew, never appended to. *)
Theorem fetch_again_changes_nothing
  (load_dataset : string -> option (gmap string (gmap string (list json))))
  (dumps : json -> string) (fs : gmap string string) :
  Fetch.run_fetch load_dataset dumps (fst (Fetch.run_fetch load_dataset dumps fs))
    = Fetch.run_fetch load_dataset dumps fs
  /\ (forall d old,
        load_dataset "philschmid/text-to-sql-dataset-medusa" = Some d ->
        Fetch.run_fetch load_dataset dumps (<["train_dataset.json" := old]> fs)
        = Fetch.run_fetch load_dataset dumps fs).
Proof.
  assert (forall fs0, Fetch.run_fetch load_dataset dumps fs0
                      = Fetch.fetch_cell load_dataset dumps
                          (Fetch.mk_fetch "philschmid/text-to-sql-dataset-medusa"
                             "train_dataset.json" "w" "train" "messages") fs0) as Hrun.
  { intros fs0. unfold Fetch.run_fetch. rewrite notebook_fetch_read. reflexivity. }
  rewrite !Hrun.
  unfold Fetch.fetch_cell, Fetch.bind, Fetch.call_load_dataset, Fetch.open_for_writing,
    Fetch.getitem, Fetch.write, Fetch.ret, Fetch.raise.
  cbn [Fetch.f_dataset Fetch.f_path Fetch.f_mode Fetch.f_split Fetch.f_column].
  change (String.eqb "w" "w") with true. cbn iota.
  split.
  - destruct (load_dataset _) as [d|]; [|reflexivity].
    destruct (d !! "train") as [t|]; cbn [fst].
    + destruct (t !! "messages") as [col|]; cbn [fst].
      * rewrite !lookup_insert_eq. cbn [default]. rewrite !insert_insert_eq. reflexivity.
      * rewrite insert_insert_eq. reflexivity.
    + rewrite insert_insert_eq. reflexivity.
  - intros d old Hd. rewrite !Hrun.
    unfold Fetch.fetch_cell, Fetch.bind, Fetch.call_load_dataset, Fetch.open_for_writing,
      Fetch.getitem, Fetch.write, Fetch.ret, Fetch.raise.
    cbn [Fetch.f_dataset Fetch.f_path Fetch.f_mode Fetch.f_split Fetch.f_column].
    change (String.eqb "w" "w") with true. cbn iota. rewrite Hd.
    destruct (d !! "train") as [t|].
    + destruct (t !! "messages") as [col|].
      * rewrite !lookup_insert_eq. cbn [default]. rewrite !insert_insert_eq. reflexivity.
      * rewrite insert_insert_eq. reflexivity.
    + rewrite insert_insert_eq. reflexivity.
Qed.

(** X4 on the small hub: an older file is replaced, not extended. *)
Lemma fetch_again_changes_nothing_witness :
  Fetch.run_fetch Fetch.sample_hub Fetch.render
    (<["train_dataset.json" := "[1, 2]"]> Fetch.sample_files)
  = Fetch.run_fetch Fetch.sample_hub Fetch.render Fetch.sample_files.
Proof.
  exact (proj2 (fetch_again_changes_nothing Fetch.sample_hub Fetch.render Fetch.sample_files)
           {[ "train" := {[ "messages" := Fetch.sample_train ]};
              "test" := {[ "messages" := [Fetch.chat "Unseen" "SELECT 1"] ]} ]}
           "[1, 2]" eq_refl).
Defined.

(** ** The narrated example *)

Section ExampleFacts.
Import Example.

Lemma notebook_example_read :
  notebook_example
  = Some (mk_example "philschmid/text-to-sql-dataset-medusa"
            "philschmid/code-llama-3-1-8b-text-to-sql" "messages" 0 2 "text" "test"
            "philschmid/text-to-sql-dataset-medusa-test-chatml").
Proof. vm_compute. reflexivity. Qed.

(** The function of the notebook on a row whose [messages] are a list. *)
Lemma create_text_field_on_list (tok : json -> option string) (ms : list json)
  (s : gmap string json) :
  notebook_create_text_field tok (<["messages" := JArr ms]> s)
  = match tok (JArr (firstn 2 ms)) with
    | Some prompt => inr {[ "text" := JStr prompt ]}
    | None => inl TemplateError
    end.
Proof.
  unfold notebook_create_text_field. rewrite notebook_example_read.
  unfold create_text_field. cbn [e_column e_lo e_hi e_text].
  rewrite lookup_insert_eq. reflexivity.
Qed.

(** What the function returns when it returns. *)
Lemma create_text_field_returns (tok : json -> option string) (r update : gmap string json) :
  notebook_create_text_field tok r = inr update ->
  exists prompt, update = {[ "text" := JStr prompt ]}.
Proof.
  unfold notebook_create_text_field. rewrite notebook_example_read.
  unfold create_text_field. cbn [e_column e_lo e_hi e_text].
  destruct (r !! "messages") as [v|]; [|discriminate].
  destruct (slice 0 2 v) as [e|conv]; [discriminate|].
  destruct (tok conv) as [p|]; [|discriminate].
  intros H. injection H as <-. exists p. reflexivity.
Qed.

Lemma create_text_field_missing (tok : json -> option string) (r : gmap string json) :
  r !! "messages" = None ->
  notebook_create_text_field tok r = inl (KeyError "messages").
Proof.
  intros Hr. unfold notebook_create_text_field. rewrite notebook_example_read.
  unfold create_text_field. cbn [e_column]. rewrite Hr. reflexivity.
Qed.

Lemma map_rows_length (f : gmap string json -> error + gmap string json)
  (rows td : list (gmap string json)) :
  map_rows f rows = inr td -> List.length td = List.length rows.
Proof.
  revert td. induction rows as [|r rows IH]; intros td; simpl.
  - intros H. injection H as <-. reflexivity.
  - destruct (f r) as [e|u]; [discriminate|].
    destruct (map_rows f rows) as [e|out]; [discriminate|].
    intros H. injection H as <-. simpl. rewrite (IH out); reflexivity.
Qed.

Lemma map_rows_lookup (f : gmap string json -> error + gmap string json)
  (rows td : list (gmap string json)) (i : nat) (r : gmap string json) :
  map_rows f rows = inr td ->
  rows !! i = Some r ->
  exists update, f r = inr update /\ td !! i = Some (update ∪ r).
Proof.
  revert td i. induction rows as [|r0 rows IH]; intros td i; simpl.
  - intros _ H. discriminate.
  - destruct (f r0) as [e|u] eqn:Hf; [discriminate|].
    destruct (map_rows f rows) as [e|out]; [discriminate|].
    intros H. injection H as <-. destruct i as [|i]; simpl.
    + intros H. injection H as <-. exists u. split; [exact Hf | reflexivity].
    + intros H. apply (IH out i); [reflexivity | exact H].
Qed.

Lemma map_rows_fails (f : gmap string json -> error + gmap string json)
  (rows : list (gmap string json)) (r : gmap string json) (e : error) :
  In r rows -> f r = inl e -> exists e', map_rows f rows = inl e'.
Proof.
  induction rows as [|r0 rows IH]; simpl; [intros []|].
  intros [->|Hin] Hf.
  - rewrite Hf. exists e. reflexivity.
  - destruct (f r0) as [e0|u]; [exists e0; reflexivity|].
    destruct (IH Hin Hf) as [e' ->]. exists e'. reflexivity.
Qed.

End ExampleFacts.

(** X5: the prompt is made of the first two messages of a row and of
    nothing else: two rows whose conversations agree on their first two
    messages give the same result, whatever follows in the conversation (the
    assistant's answer) and whatever the other columns hold. *)
Theorem prompt_depends_on_first_two_messages
  (tokenizer : json -> option string) (ms ms' : list json) (s s' : gmap string json) :
  firstn 2 ms = firstn 2 ms' ->
  Example.notebook_create_text_field tokenizer (<["messages" := JArr ms]> s)
  = Example.notebook_create_text_field tokenizer (<["messages" := JArr ms']> s').
Proof.
  intros H. rewrite !create_text_field_on_list, H. reflexivity.
Qed.

(** X5 on a conversation with and without its answer. *)
Lemma prompt_depends_on_first_two_messages_witness :
  Example.notebook_create_text_field Example.sample_template Example.sample_row
  = Example.notebook_create_text_field Example.sample_template
      (<["messages" := JArr [Example.message "system" "You translate to SQL";
                             Example.message "user" "How many heads?"]]> ∅).
Proof.
  exact (prompt_depends_on_first_two_messages Example.sample_template
           [Example.message "system" "You translate to SQL";
            Example.message "user" "How many heads?";
            Example.message "assistant" "SELECT COUNT(*) FROM head"]
           [Example.message "system" "You translate to SQL";
            Example.message "user" "How many heads?"]
           {[ "id" := JNum 7 ]} ∅ eq_refl).
Defined.

(** X6: a row without a [messages] column makes the function raise a key
    error before the tokenizer is asked; a conversation of fewer than two
    messages is no error, the slice is then the whole conversation; a number
    in the column is a type error; and when the template refuses the two
    messages, the function raises. *)
Theorem create_text_field_edge_cases
  (tokenizer : json -> option string) (s : gmap string json) :
  (s !! "messages" = None ->
     Example.notebook_create_text_field tokenizer s = inl (Example.KeyError "messages"))
  /\ (forall ms prompt,
        List.length ms <= 2 ->
        tokenizer (JArr ms) = Some prompt ->
        Example.notebook_create_text_field tokenizer (<["messages" := JArr ms]> s)
        = inr {[ "text" := JStr prompt ]})
  /\ (forall z, exists what,
        Example.notebook_create_text_field tokenizer (<["messages" := JNum z]> s)
        = inl (Example.TypeError what))
  /\ (forall ms,
        tokenizer (JArr (firstn 2 ms)) = None ->
        Example.notebook_create_text_field tokenizer (<["messages" := JArr ms]> s)
        = inl Example.TemplateError).
Proof.
  split; [|split; [|split]].
  - apply create_text_field_missing.
  - intros ms prompt Hlen Htok. rewrite create_text_field_on_list.
    rewrite firstn_all2 by exact Hlen. rewrite Htok. reflexivity.
  - intros z. eexists.
    unfold Example.notebook_create_text_field. rewrite notebook_example_read.
    unfold Example.create_text_field. cbn [Example.e_column Example.e_lo Example.e_hi].
    rewrite lookup_insert_eq. reflexivity.
  - intros ms Htok. rewrite create_text_field_on_list, Htok. reflexivity.
Qed.

(** X6 on a row that has no conversation and on one of a single message. *)
Lemma create_text_field_edge_cases_witness :
  Example.notebook_create_text_field Example.sample_template Example.broken_row
    = inl (Example.KeyError "messages")
  /\ Example.notebook_create_text_field Example.sample_template Example.short_row
     = inr {[ "text" := JStr "<user>" ]}.
Proof.
  split.
  - exact (proj1 (create_text_field_edge_cases Example.sample_template Example.broken_row)
             eq_refl).
  - exact (proj1 (proj2 (create_text_field_edge_cases Example.sample_template ∅))
             [Example.message "user" "Hello"] "<user>" (le_S 1 1 (le_n 1)) eq_refl).
Defined.

(** X7: when mapping the function over a split succeeds, the result has as
    many rows as the split, in the same order; each row keeps every column
    it had other than [text] and has a [text] column holding a string.  A
    single row without [messages] makes the whole mapping fail. *)
Theorem map_adds_text_and_keeps_the_rest
  (tokenizer : json -> option string) (rows td : list (gmap string json)) :
  Example.map_rows (Example.notebook_create_text_field tokenizer) rows = inr td ->
  List.length td = List.length rows
  /\ (forall i r r',
        rows !! i = Some r -> td !! i = Some r' ->
        (forall k, k <> "text" -> r' !! k = r !! k)
        /\ exists prompt, r' !! "text" = Some (JStr prompt))
  /\ (forall r, In r rows -> r !! "messages" <> None).
Proof.
  intros Hmap. split; [|split].
  - apply (map_rows_length _ _ _ Hmap).
  - intros i r r' Hr Hr'.
    destruct (map_rows_lookup _ _ _ i r Hmap Hr) as [update [Hf Htd]].
    rewrite Hr' in Htd. injection Htd as ->.
    destruct (create_text_field_returns tokenizer r update Hf) as [prompt ->].
    split.
    + intros k Hk. apply lookup_union_r. apply lookup_singleton_ne. congruence.
    + exists prompt. apply lookup_union_Some_l. apply lookup_singleton_eq.
  - intros r Hin Hnone.
    destruct (map_rows_fails (Example.notebook_create_text_field tokenizer) rows r
                (Example.KeyError "messages") Hin) as [e He].
    + exact (create_text_field_missing tokenizer r Hnone).
    + rewrite He in Hmap. discriminate.
Qed.

(** X7 on a split of one row. *)
Lemma map_adds_text_and_keeps_the_rest_witness :
  Example.map_rows (Example.notebook_create_text_field Example.sample_template)
    [<["messages" := JArr [Example.message "user" "Hello"]]> ∅]
  = inr [ {[ "text" := JStr "<user>" ]}
          ∪ <["messages" := JArr [Example.message "user" "Hello"]]> ∅ ]
  /\ List.length [ {[ "text" := JStr "<user>" ]}
                   ∪ <["messages" := JArr [Example.message "user" "Hello"]]>
                       (∅ : gmap string json) ] = 1.
Proof.
  assert (Example.map_rows (Example.notebook_create_text_field Example.sample_template)
            [<["messages" := JArr [Example.message "user" "Hello"]]> ∅]
          = inr [ {[ "text" := JStr "<user>" ]}
                  ∪ <["messages" := JArr [Example.message "user" "Hello"]]> ∅ ]) as Hmap.
  { cbn [Example.map_rows]. rewrite create_text_field_on_list. reflexivity. }
  split; [exact Hmap|].
  exact (proj1 (map_adds_text_and_keeps_the_rest Example.sample_template _ _ Hmap)).
Defined.



(** ** The acceleration formula *)

(** X9: for a positive number of loops, the acceleration is above 1 exactly
    when more tokens were produced (generated and skipped together) than
    loops were run; it is the sum of the generated and of the skipped tokens
    per loop; and it does not change when all three counts are multiplied by
    the same positive number. *)
Theorem acceleration_above_one_iff_tokens_exceed_loops (generated skipped loops : Z) :
  (0 < loops)%Z ->
  ((1 < Metrics.acceleration generated skipped loops)%Q <-> (loops < generated + skipped)%Z)
  /\ (Metrics.acceleration generated skipped loops
      == inject_Z generated / inject_Z loops + inject_Z skipped / inject_Z loops)%Q
  /\ (forall k, (0 < k)%Z ->
        (Metrics.acceleration (k * generated) (k * skipped) (k * loops)
         == Metrics.acceleration generated skipped loops)%Q).
Proof.
  intros Hl. unfold Metrics.acceleration.
  assert (~ (inject_Z loops == 0)%Q) as Hne.
  { unfold Qeq, inject_Z. simpl. lia. }
  assert (0 < inject_Z loops)%Q as Hpos.
  { unfold Qlt, inject_Z. simpl. lia. }
  split; [|split].
  - split; intros H.
    + apply (Qmult_lt_r _ _ (inject_Z loops) Hpos) in H.
      rewrite Qmult_1_l in H. unfold Qdiv in H.
      rewrite <- Qmult_assoc, (Qmult_comm (/ inject_Z loops)), Qmult_inv_r, Qmult_1_r in H
        by exact Hne.
      rewrite <- Zlt_Qlt in H. exact H.
    + apply (Qmult_lt_r _ _ (inject_Z loops) Hpos).
      rewrite Qmult_1_l. unfold Qdiv.
      rewrite <- Qmult_assoc, (Qmult_comm (/ inject_Z loops)), Qmult_inv_r, Qmult_1_r
        by exact Hne.
      rewrite <- Zlt_Qlt. exact H.
  - rewrite inject_Z_plus. field. exact Hne.
  - intros k Hk.
    assert (~ (inject_Z k == 0)%Q) as Hk0.
    { unfold Qeq, inject_Z. simpl. lia. }
    replace (k * generated + k * skipped)%Z with (k * (generated + skipped))%Z by ring.
    rewrite !inject_Z_mult. field. split; assumption.
Qed.

(** X9 at the counts of the narrative. *)
Lemma acceleration_above_one_iff_tokens_exceed_loops_witness :
  (1 < Metrics.acceleration 17687 27101 27101)%Q.
Proof.
  apply (proj1 (acceleration_above_one_iff_tokens_exceed_loops 17687 27101 27101 eq_refl)).
  reflexivity.
Defined.

(** ** What a run sets up *)

Section SetupFacts.
Import Kernel.

(** A run executes items of the notebook only. *)
Lemma run_forallb (p : item -> bool) (ok : item -> bool) (its : list item) :
  forallb p its = true ->
  forallb (fun x => p (fst x)) (run ok its) = true.
Proof.
  induction its as [|it its IH]; simpl; [reflexivity|].
  intros H. apply andb_true_iff in H as [Hp Hits].
  destruct (kernel_runs it); [|exact (IH Hits)].
  destruct (ok it); simpl.
  - rewrite Hp. exact (IH Hits).
  - destruct (raises_on_failure it); simpl; rewrite Hp; [reflexivity | exact (IH Hits)].
Qed.

End SetupFacts.

(** X10: whatever succeeds and whatever fails, a run of the notebook never
    calls [git] and never installs a [medusa] package (the lines that would
    are comments): the packages it installs are the six of the first cell
    and [guidellm].  Yet the training command names two files under a
    [Medusa] directory and the upload runs a module of the [medusa]
    package. *)
Theorem run_never_sets_up_medusa :
  (forall ok,
     forallb (fun x => Setup.sets_up_no_medusa (fst x)) (Kernel.run ok items) = true)
  /\ flat_map (fun x => Setup.installs (fst x)) (Kernel.run (fun _ => true) items)
     = ["torch"; "tensorboard"; "transformers"; "datasets"; "accelerate"; "deepspeed";
        "guidellm"]
  /\ option_map (Setup.files_under "Medusa") (first_item Train)
     = Some ["Medusa/medusa/train/train_legacy.py"; "./Medusa/deepspeed.json"]
  /\ option_map Setup.top_package (first_item Upload ≫= Setup.python_module)
     = Some "medusa"
  /\ List.filter (Text.contains "git clone") (source cell1)
     = ["# !git clone https://github.com/philschmid/Medusa"].
Proof.
  split.
  - intros ok. apply run_forallb. vm_compute. reflexivity.
  - conjuncts; vm_compute; reflexivity.
Qed.

(** ** The two servers *)

Section PortFacts.
Import World.



End PortFacts.



(** ** Running the code cells without the prose *)

Section CellsFacts.
Import World Cells.

Lemma kernel_items_start_no_server (it : item) :
  In it kernel_items -> is_step ServerStart it = false.
Proof.
  assert (forallb (fun it => negb (is_step ServerStart it)) kernel_items = true) as H
    by (vm_compute; reflexivity).
  intros Hin. apply negb_true_iff. exact (proj1 (forallb_forall _ _) H it Hin).
Qed.

Lemma kernel_events_start_no_server (es : list event) :
  Forall (fun e => In (item_of e) kernel_items) es ->
  forallb starts_no_server es = true.
Proof.
  induction 1 as [|e es He _ IH]; [reflexivity|].
  simpl. rewrite IH, andb_true_r.
  destruct e as [it|it]; [|reflexivity].
  simpl. apply negb_true_iff. apply kernel_items_start_no_server. exact He.
Qed.

Lemma in_firstn {A} (n : nat) (l : list A) (x : A) : In x (firstn n l) -> In x l.
Proof.
  revert l. induction n as [|n IH]; intros [|y l]; simpl; try tauto.
  intros [->|H]; [left; reflexivity | right; exact (IH l H)].
Qed.

(** The blocking schedule of some of the code cells is made of their events. *)
Lemma blocking_of_kernel_items (its : list item) :
  (forall it, In it its -> In it kernel_items) ->
  Forall (fun e => In (item_of e) kernel_items) (blocking its).
Proof.
  induction its as [|it its IH]; intros H; [constructor|].
  change (blocking (it :: its)) with (Begin it :: Finish it :: blocking its).
  constructor; [exact (H it (or_introl eq_refl))|].
  constructor; [exact (H it (or_introl eq_refl))|].
  apply IH. intros it' Hin. apply H. right. exact Hin.
Qed.

End CellsFacts.

(** X12: the test request is a code cell, but the server is started by a
    command in prose only.  So whatever code cells have been run before it,
    in whatever order and however often, the test request finds nobody on
    port 8080: the code cells on their own cannot get past it. *)
Theorem code_cells_alone_cannot_reach_the_server (es : list World.event) :
  Forall (fun e => In (Cells.item_of e) Cells.kernel_items) es ->
  World.exec (es ++ [World.Begin World.the_test_request]) [] = None
  /\ In World.the_test_request Cells.kernel_items
  /\ map step_of (List.filter (is_step ServerStart) items) = [ServerStart; ServerStart]
  /\ map Kernel.kernel_runs (List.filter (is_step ServerStart) items) = [false; false].
Proof.
  intros Hes. split; [|conjuncts; [|vm_compute; reflexivity ..]].
  - rewrite exec_app.
    destruct (World.exec es []) as [w|] eqn:Hx; [|reflexivity].
    change (World.begin World.the_test_request w ≫= World.exec [] = None).
    rewrite (client_needs_server World.the_test_request 8080%N w); [reflexivity | | |].
    + left. vm_compute. reflexivity.
    + vm_compute. reflexivity.
    + apply (down_stays_down es 8080%N [] w); [|exact Hx|reflexivity].
      apply kernel_events_start_no_server. exact Hes.
  - vm_compute. do 4 right. left. reflexivity.
Qed.

(** X12 after the installs, the dataset cell, the training and the upload
    have run to completion. *)
Lemma code_cells_alone_cannot_reach_the_server_witness :
  World.exec
    (World.blocking (firstn 4 Cells.kernel_items) ++ [World.Begin World.the_test_request]) []
  = None.
Proof.
  refine (proj1 (code_cells_alone_cannot_reach_the_server
                   (World.blocking (firstn 4 Cells.kernel_items)) _)).
  apply blocking_of_kernel_items. intros it. apply in_firstn.
Defined.
